(** * HTMLImageGenerator: the display strings of the course-schedule plugin

    A shallow embedding of
    [nonebot_plugin_course_schedule/utils/html_image_generator.py].

    Python objects are modelled as follows.
    - [str] is a [string] holding the UTF-8 bytes of the text;
    - [int] is [Z] (Python integers are unbounded);
    - [float] is an exact rational [Q]: the only floats of the module are the
      results of [timedelta.total_seconds()] and of [//] and [%] on them by the
      constants 3600 and 60. Binary64 computes these without rounding on a
      duration of a whole number of seconds below 2^53 in size, and every
      statement about the duration text is made for such durations only; on
      a duration with microseconds the binary64 value can differ from the
      exact one in its last place;
    - a dictionary received from the caller is a [gmap string pyval];
      a dictionary built from a literal with fixed keys is a record;
    - an exception is a value of [exn], which stands for an instance of
      [Exception], the exceptions an [except Exception] clause catches; code
      that may raise returns [result]. What is not an [Exception]
      ([asyncio.CancelledError] thrown in at an [await], [KeyboardInterrupt],
      [SystemExit]) passes such a clause untouched and is not an outcome of
      this model: a call is followed to its return or to its [Exception];
    - the logger, the generator object and the temporary files are the
      components of an explicit [state]; the clock, the HTML renderer and the
      temp-file mechanism are the fields of a [world]. *)

From Stdlib Require Import ZArith QArith Qround Ascii String DecimalString.
From Stdlib Require DecimalZ DecimalPos.
From stdpp Require Import base gmap strings list.

Local Open Scope Z_scope.

(** ** Python values *)

Module Py.

(** [datetime.date] *)
Record date := mkdate { year : Z; month : Z; day : Z }.

(** [datetime.datetime] (naive or aware: the module never reads [tzinfo]) *)
Record datetime := mkdatetime {
  dt_date : date;
  hour : Z; minute : Z; second : Z; microsecond : Z
}.

(** [datetime.timedelta], in CPython's normalised representation *)
Record timedelta := mktimedelta { days : Z; seconds : Z; microseconds : Z }.

(** The objects a caller stores in a course or ranking dictionary. *)
Inductive pyval :=
| PyNone
| PyInt (z : Z)
| PyStr (s : string)
| PyDatetime (d : datetime)
| PyTimedelta (t : timedelta).

(** An instance of [Exception]: its class and what [str(e)] returns.
    Instances of [BaseException] outside [Exception] are not values of this
    type. *)
Record exn := mkexn { exn_class : string; exn_str : string }.

Inductive result (A : Type) :=
| Ok (a : A)
| Raise (e : exn).
Arguments Ok {A} a.
Arguments Raise {A} e.

Definition rbind {A B} (r : result A) (k : A -> result B) : result B :=
  match r with
  | Ok a => k a
  | Raise e => Raise e
  end.

Notation "x <- r ;; k" := (rbind r (fun x => k))
  (at level 100, r at next level, right associativity).

(** *** Decimal conversion and [%0Nd] *)

(** [str(z)] for an [int] *)
Definition str_of_Z (z : Z) : string := NilZero.string_of_int (Z.to_int z).

Fixpoint zeros (n : nat) : string :=
  match n with
  | O => EmptyString
  | S n' => String "0" (zeros n')
  end.

(** ["%0wd" % z] for [0 <= z] *)
Definition zfill (w : nat) (z : Z) : string :=
  let s := str_of_Z z in
  zeros (w - String.length s) +:+ s.

(** *** Type names and the exceptions the module can meet *)

Definition type_name (v : pyval) : string :=
  match v with
  | PyNone => "NoneType"
  | PyInt _ => "int"
  | PyStr _ => "str"
  | PyDatetime _ => "datetime.datetime"
  | PyTimedelta _ => "datetime.timedelta"
  end.

Definition KeyError (k : string) : exn :=
  mkexn "KeyError" ("'" +:+ k +:+ "'").

Definition AttributeError (v : pyval) (attr : string) : exn :=
  mkexn "AttributeError"
        ("'" +:+ type_name v +:+ "' object has no attribute '" +:+ attr +:+ "'").

Definition IndexError : exn := mkexn "IndexError" "list index out of range".

(** *** Truth value, [dict] access, list index *)

(** [bool(v)] *)
Definition truthy (v : pyval) : bool :=
  match v with
  | PyNone => false
  | PyInt z => negb (z =? 0)
  | PyStr s => negb (String.eqb s "")
  | PyDatetime _ => true
  | PyTimedelta t =>
      negb ((days t =? 0) && (seconds t =? 0) && (microseconds t =? 0))
  end.

(** [d.get(k)]: [None] when the key is absent *)
Definition dict_get (d : gmap string pyval) (k : string) : pyval :=
  default PyNone (d !! k).

(** [d.get(k, dflt)] *)
Definition dict_get_default (d : gmap string pyval) (k : string) (dflt : pyval)
  : pyval :=
  default dflt (d !! k).

(** [d[k]]: [KeyError] when the key is absent *)
Definition dict_getitem (d : gmap string pyval) (k : string) : result pyval :=
  match d !! k with
  | Some v => Ok v
  | None => Raise (KeyError k)
  end.

(** [l[i]]: a negative index counts from the end, anything else out of range
    raises [IndexError] *)
Definition list_getitem {A} (l : list A) (i : Z) : result A :=
  let n := Z.of_nat (length l) in
  let j := if i <? 0 then i + n else i in
  if (j <? 0) || (n <=? j) then Raise IndexError
  else match l !! Z.to_nat j with
       | Some x => Ok x
       | None => Raise IndexError
       end.

(** *** The calendar of [datetime] *)

Definition _is_leap (y : Z) : bool :=
  (y mod 4 =? 0) && (negb (y mod 100 =? 0) || (y mod 400 =? 0)).

Definition _DAYS_BEFORE_MONTH : list Z :=
  [-1; 0; 31; 59; 90; 120; 151; 181; 212; 243; 273; 304; 334].

Definition _days_before_year (y : Z) : Z :=
  let y1 := y - 1 in
  y1 * 365 + y1 / 4 - y1 / 100 + y1 / 400.

Definition _days_before_month (y m : Z) : Z :=
  default 0 (_DAYS_BEFORE_MONTH !! Z.to_nat m)
  + (if (2 <? m) && _is_leap y then 1 else 0).

Definition _ymd2ord (y m d : Z) : Z :=
  _days_before_year y + _days_before_month y m + d.

Definition toordinal (d : date) : Z := _ymd2ord (year d) (month d) (day d).

(** [date.weekday()]: Monday is 0, Sunday is 6 *)
Definition date_weekday (d : date) : Z := (toordinal d + 6) mod 7.

Definition weekday (d : datetime) : Z := date_weekday (dt_date d).

(** *** [strftime] *)

(** One directive of a format string. [%Y] is written with four digits, as
    [isoformat] writes it; the C library agrees from year 1000 on. *)
Definition directive (c : ascii) (d : datetime) : string :=
  if Ascii.eqb c "Y" then zfill 4 (year (dt_date d))
  else if Ascii.eqb c "m" then zfill 2 (month (dt_date d))
  else if Ascii.eqb c "d" then zfill 2 (day (dt_date d))
  else if Ascii.eqb c "H" then zfill 2 (hour d)
  else if Ascii.eqb c "M" then zfill 2 (minute d)
  else if Ascii.eqb c "S" then zfill 2 (second d)
  else if Ascii.eqb c "%" then "%"
  else String "%" (String c EmptyString).

Fixpoint strftime_go (fmt : string) (pending : bool) (d : datetime) : string :=
  match fmt with
  | EmptyString => if pending then "%" else EmptyString
  | String c rest =>
      if pending then directive c d +:+ strftime_go rest false d
      else if Ascii.eqb c "%" then strftime_go rest true d
      else String c (strftime_go rest false d)
  end.

(** [d.strftime(fmt)] for a [datetime] *)
Definition strftime (d : datetime) (fmt : string) : string :=
  strftime_go fmt false d.

(** [d.strftime(fmt)] for a [date]: the time of day reads as midnight *)
Definition date_strftime (d : date) (fmt : string) : string :=
  strftime (mkdatetime d 0 0 0 0) fmt.

(** *** [timedelta] and the floats made from it *)

(** [td.total_seconds()], as the exact quotient of the microseconds by
    10**6. The binary64 that Python returns is this number when
    [microseconds] is 0 and the whole seconds are below 2^53 in size;
    otherwise it is the nearest binary64. *)
Definition total_seconds (t : timedelta) : Q :=
  Qmake ((days t * 86400 + seconds t) * 1000000 + microseconds t) 1000000.

(** [x // y] on floats, [y] not zero *)
Definition float_floordiv (x y : Q) : Q := inject_Z (Qfloor (x / y)).

(** [x % y] on floats, [y] not zero: the result has the sign of [y] *)
Definition float_mod (x y : Q) : Q := (x - y * inject_Z (Qfloor (x / y)))%Q.

(** [int(x)] on a float: rounds toward zero *)
Definition int_of_float (x : Q) : Z := Z.quot (Qnum x) (Z.pos (Qden x)).

(** *** [str(v)], which is also what an f-string field [{v}] inserts *)

Definition str_of_timedelta (t : timedelta) : string :=
  let mm := seconds t / 60 in
  let ss := seconds t mod 60 in
  let hh := mm / 60 in
  let mm := mm mod 60 in
  let s := str_of_Z hh +:+ ":" +:+ zfill 2 mm +:+ ":" +:+ zfill 2 ss in
  let s :=
    if days t =? 0 then s
    else str_of_Z (days t) +:+ " day"
         +:+ (if Z.abs (days t) =? 1 then "" else "s") +:+ ", " +:+ s in
  if microseconds t =? 0 then s else s +:+ "." +:+ zfill 6 (microseconds t).

Definition str_of_datetime (d : datetime) : string :=
  let s := strftime d "%Y-%m-%d %H:%M:%S" in
  if microsecond d =? 0 then s else s +:+ "." +:+ zfill 6 (microsecond d).

Definition py_str (v : pyval) : string :=
  match v with
  | PyNone => "None"
  | PyInt z => str_of_Z z
  | PyStr s => s
  | PyDatetime d => str_of_datetime d
  | PyTimedelta t => str_of_timedelta t
  end.

End Py.

Import Py.

(** ** The generator, what it hands to the renderer, and its surroundings *)

(** The object built by [HTMLImageGenerator.__init__]. The jinja2
    [Environment] is represented by the directory its loader searches. *)
Record HTMLImageGenerator := mkgen {
  env : string;
  template_path : string;
  font_path : string
}.

(** [__init__], given the directory [Path(__file__).parent.parent / "templates"]
    and [config.course_font_path] *)
Definition __init__ (template_path : string) (course_font_path : string)
  : HTMLImageGenerator :=
  mkgen template_path template_path course_font_path.

(** One element of [formatted_courses] *)
Record formatted_course := mkcourse {
  time_str : string;
  detail_lines : list pyval
}.

(** One element of [formatted_ranking_data] *)
Record formatted_rank := mkrank {
  row_index : Z;
  rank : string;
  rank_class : string;
  avatar_url : string;
  nickname : pyval;
  duration_str : string;
  count_str : string
}.

(** The three [template_data] dictionaries *)
Inductive template_data :=
| GroupScheduleData (courses : list (gmap string pyval))
| UserScheduleData (title_lines : list string)
                   (courses : list formatted_course)
                   (generate_time : string)
| RankingData (date_range : string) (ranking_data : list formatted_rank).

Definition bytes := list Byte.byte.

(** The collaborators outside the module.
    - [now k off]: the [k]-th reading of [datetime.now(timezone(off))] made
      by the running call;
    - [template_to_pic]: the HTML renderer of nonebot_plugin_htmlkit;
    - [NamedTemporaryFile suffix]: the name of the file it created;
    - [file_write], [file_close]: the two calls on that file. *)
Record world := mkworld {
  now : nat -> timedelta -> datetime;
  template_to_pic : string -> string -> template_data -> Z -> Z -> result bytes;
  NamedTemporaryFile : string -> result string;
  file_write : string -> bytes -> result unit;
  file_close : string -> result unit
}.

(** What a call can change: the generator object, the error log and the
    temporary files on disk. *)
Record state := mkstate {
  self : HTMLImageGenerator;
  log : list string;
  files : gmap string bytes
}.

Definition M (A : Type) : Type := state -> state * result A.

Definition mret {A} (a : A) : M A := fun s => (s, Ok a).

Definition mbind {A B} (m : M A) (k : A -> M B) : M B :=
  fun s =>
    match m s with
    | (s', Ok a) => k a s'
    | (s', Raise e) => (s', Raise e)
    end.

Notation "x <~ m ;; k" := (mbind m (fun x => k))
  (at level 100, m at next level, right associativity).

(** A computation that only raises or returns *)
Definition lift {A} (r : result A) : M A := fun s => (s, r).

(** Reading [self], as in [self.template_path] *)
Definition get_self : M HTMLImageGenerator := fun s => (s, Ok (self s)).

(** [logger.error(msg)] *)
Definition logger_error (msg : string) : M unit :=
  fun s => (mkstate (self s) (log s ++ [msg]) (files s), Ok tt).

(** The file at [path] now holds [data] *)
Definition set_file (path : string) (data : bytes) : M unit :=
  fun s => (mkstate (self s) (log s) (<[path := data]> (files s)), Ok tt).

(** [try: body  except Exception as e: logger.error(f"{what}: {e}"); raise],
    for a body that returns or raises an [Exception] *)
Definition try_log {A} (what : string) (body : M A) : M A :=
  fun s =>
    match body s with
    | (s', Ok a) => (s', Ok a)
    | (s', Raise e) =>
        match logger_error (what +:+ ": " +:+ exn_str e) s' with
        | (s'', _) => (s'', Raise e)
        end
    end.

(** The four lines that end each operation:
    [temp_file = tempfile.NamedTemporaryFile(delete=False, suffix=".png")],
    [temp_path = temp_file.name], [temp_file.write(img_data)],
    [temp_file.close()], and the [return temp_path] after them. *)
Definition save_png (w : world) (img_data : bytes) : M string :=
  temp_path <~ lift (NamedTemporaryFile w ".png") ;;
  _ <~ set_file temp_path [] ;;
  _ <~ lift (file_write w temp_path img_data) ;;
  _ <~ set_file temp_path img_data ;;
  _ <~ lift (file_close w temp_path) ;;
  mret temp_path.

(** ** generate_schedule_image *)

Definition generate_schedule_image (w : world)
    (courses : list (gmap string pyval)) : M string :=
  try_log "生成群课程表图片失败"
    (let template_data := GroupScheduleData courses in
     this <~ get_self ;;
     img_data <~ lift (template_to_pic w (template_path this)
                         "group_schedule.html" template_data 1200 800) ;;
     save_png w img_data).

(** ** generate_user_schedule_image *)

(** [timezone(timedelta(hours=8))], as its offset *)
Definition utc8 : timedelta := mktimedelta 0 (8 * 3600) 0.

Definition weeklist : list string :=
  ["周一"; "周二"; "周三"; "周四"; "周五"; "周六"; "周日"].

(** [v.strftime(fmt)] on an object taken from a dictionary *)
Definition py_strftime (v : pyval) (fmt : string) : result string :=
  match v with
  | PyDatetime d => Ok (strftime d fmt)
  | _ => Raise (AttributeError v "strftime")
  end.

(** The first statements of the [try] block: [day], [weekday], [weeklist]
    and [title_lines]. [date] is [None] or a [datetime], which is always
    true as a condition. *)
Definition make_title_lines (w : world) (nickname : string)
    (date : option datetime) : result (list string) :=
  let day := match date with
             | Some d => strftime d "%m-%d "
             | None => "今日"
             end in
  let weekday := match date with
                 | Some d => weekday d
                 | None => weekday (now w 0%nat utc8)
                 end in
  name <- list_getitem weeklist weekday ;;
  Ok [nickname +:+ "的"; day +:+ "课程（" +:+ name +:+ "）"].

(** The body of [for course in courses] *)
Definition format_course (course : gmap string pyval) : result formatted_course :=
  let start_time := dict_get course "start_time" in
  let end_time := dict_get course "end_time" in
  time_str <-
    (if truthy start_time && truthy end_time
     then s <- py_strftime start_time "%H:%M" ;;
          e <- py_strftime end_time "%H:%M" ;;
          Ok (s +:+ " - " +:+ e)
     else Ok "时间未知") ;;
  let summary := dict_get_default course "summary" (PyStr "无课程信息") in
  let location := dict_get_default course "location" (PyStr "未知地点") in
  let teacher := dict_get_default course "description" (PyStr "未知教师") in
  let detail_lines := [summary; location; teacher] in
  Ok (mkcourse time_str detail_lines).

(** The loop: [formatted_courses] after the last iteration, or the first
    exception raised *)
Fixpoint format_courses (courses : list (gmap string pyval))
  : result (list formatted_course) :=
  match courses with
  | [] => Ok []
  | course :: rest =>
      c <- format_course course ;;
      cs <- format_courses rest ;;
      Ok (c :: cs)
  end.

(** The number of clock readings made before [generate_time] is computed *)
Definition readings_before_generate_time (date : option datetime) : nat :=
  match date with
  | Some _ => 0%nat
  | None => 1%nat
  end.

Definition generate_user_schedule_image (w : world)
    (courses : list (gmap string pyval)) (nickname : string)
    (date : option datetime) : M string :=
  try_log "生成用户课程表图片失败"
    (title_lines <~ lift (make_title_lines w nickname date) ;;
     formatted_courses <~ lift (format_courses courses) ;;
     let generate_time :=
       strftime (now w (readings_before_generate_time date) utc8)
                "%Y-%m-%d %H:%M:%S" in
     let template_data :=
       UserScheduleData title_lines formatted_courses generate_time in
     this <~ get_self ;;
     img_data <~ lift (template_to_pic w (template_path this)
                         "user_schedule.html" template_data 1000 600) ;;
     save_png w img_data).

(** ** generate_ranking_image *)

(** [rank_class = "other"] and the [if]/[elif] chain on [rank] *)
Definition rank_class_of (rank : Z) : string :=
  if rank =? 1 then "first"
  else if rank =? 2 then "second"
  else if rank =? 3 then "third"
  else "other".

(** [v.total_seconds()] on an object taken from a dictionary *)
Definition py_total_seconds (v : pyval) : result Q :=
  match v with
  | PyTimedelta t => Ok (total_seconds t)
  | _ => Raise (AttributeError v "total_seconds")
  end.

(** [f"{hours}h {minutes}m"] from [total_seconds] *)
Definition format_duration (total_seconds : Q) : string :=
  let hours := int_of_float (float_floordiv total_seconds (inject_Z 3600)) in
  let minutes :=
    int_of_float
      (float_floordiv (float_mod total_seconds (inject_Z 3600)) (inject_Z 60)) in
  str_of_Z hours +:+ "h " +:+ str_of_Z minutes +:+ "m".

(** [f"https://q1.qlogo.cn/g?b=qq&nk={data['user_id']}&s=100"] *)
Definition make_avatar_url (user_id : pyval) : string :=
  "https://q1.qlogo.cn/g?b=qq&nk=" +:+ py_str user_id +:+ "&s=100".

(** The body of [for i, data in enumerate(ranking_data)] *)
Definition format_rank (i : nat) (data : gmap string pyval)
  : result formatted_rank :=
  let rank := Z.of_nat i + 1 in
  let rank_class := rank_class_of rank in
  total_duration <- dict_getitem data "total_duration" ;;
  total_seconds <- py_total_seconds total_duration ;;
  let duration_str := format_duration total_seconds in
  course_count <- dict_getitem data "course_count" ;;
  let count_str := py_str course_count +:+ " 节" in
  user_id <- dict_getitem data "user_id" ;;
  let avatar_url := make_avatar_url user_id in
  nickname <- dict_getitem data "nickname" ;;
  Ok (mkrank (Z.of_nat i) (str_of_Z rank) rank_class avatar_url nickname
             duration_str count_str).

(** The loop, from index [i] on *)
Fixpoint format_ranking_from (i : nat) (ranking_data : list (gmap string pyval))
  : result (list formatted_rank) :=
  match ranking_data with
  | [] => Ok []
  | data :: rest =>
      r <- format_rank i data ;;
      rs <- format_ranking_from (S i) rest ;;
      Ok (r :: rs)
  end.

Definition format_ranking (ranking_data : list (gmap string pyval))
  : result (list formatted_rank) :=
  format_ranking_from 0 ranking_data.

Definition generate_ranking_image (w : world)
    (ranking_data : list (gmap string pyval)) (start_date end_date : date)
  : M string :=
  try_log "生成排行榜图片失败"
    (let date_range :=
       date_strftime start_date "%Y/%m/%d" +:+ " - "
       +:+ date_strftime end_date "%Y/%m/%d" in
     formatted_ranking_data <~ lift (format_ranking ranking_data) ;;
     let template_data := RankingData date_range formatted_ranking_data in
     this <~ get_self ;;
     img_data <~ lift (template_to_pic w (template_path this)
                         "ranking.html" template_data 1200 800) ;;
     save_png w img_data).

(** ** Vocabulary of the statements *)

(** The last two steps of every operation: the renderer call on the
    generator's [template_path], then [save_png]. *)
Definition render_and_save (w : world) (name : string) (data : template_data)
    (max_width device_height : Z) : M string :=
  this <~ get_self ;;
  img_data <~ lift (template_to_pic w (template_path this) name data
                      max_width device_height) ;;
  save_png w img_data.

(** The renderer, or one of the three temp-file calls after it, raises [e]. *)
Inductive io_fails (w : world) (tp name : string) (data : template_data)
    (max_width device_height : Z) (e : exn) : Prop :=
| renderer_fails :
    template_to_pic w tp name data max_width device_height = Raise e ->
    io_fails w tp name data max_width device_height e
| create_fails img :
    template_to_pic w tp name data max_width device_height = Ok img ->
    NamedTemporaryFile w ".png" = Raise e ->
    io_fails w tp name data max_width device_height e
| write_fails img path :
    template_to_pic w tp name data max_width device_height = Ok img ->
    NamedTemporaryFile w ".png" = Ok path ->
    file_write w path img = Raise e ->
    io_fails w tp name data max_width device_height e
| close_fails img path :
    template_to_pic w tp name data max_width device_height = Ok img ->
    NamedTemporaryFile w ".png" = Ok path ->
    file_write w path img = Ok tt ->
    file_close w path = Raise e ->
    io_fails w tp name data max_width device_height e.

(** The renderer returns [img] and the temp-file calls store it at [path]. *)
Definition io_succeeds (w : world) (tp name : string) (data : template_data)
    (max_width device_height : Z) (img : bytes) (path : string) : Prop :=
  template_to_pic w tp name data max_width device_height = Ok img /\
  NamedTemporaryFile w ".png" = Ok path /\
  file_write w path img = Ok tt /\
  file_close w path = Ok tt.

(** The renderer and the temp-file mechanism never fail. *)
Definition world_succeeds (w : world) : Prop :=
  (forall tp name data mw dh, exists img,
      template_to_pic w tp name data mw dh = Ok img) /\
  (exists path, NamedTemporaryFile w ".png" = Ok path) /\
  (forall path img, file_write w path img = Ok tt) /\
  (forall path, file_close w path = Ok tt).

(** The name of a weekday numbered as [date.weekday()] numbers it *)
Definition weekday_name (wd : Z) : string :=
  nth (Z.to_nat wd) weeklist EmptyString.

(** The title as the specification words it: the nickname line, then the
    date written month-day (or the word for today) and the weekday name. *)
Definition spec_title_lines (w : world) (nickname : string)
    (date : option datetime) : list string :=
  let day := match date with
             | Some d => zfill 2 (month (dt_date d)) +:+ "-"
                         +:+ zfill 2 (day (dt_date d)) +:+ " "
             | None => "今日"
             end in
  let today := match date with
               | Some d => dt_date d
               | None => dt_date (now w 0%nat utc8)
               end in
  [nickname +:+ "的";
   day +:+ "课程（" +:+ weekday_name (date_weekday today) +:+ "）"].

(** [HH:MM] of a timestamp *)
Definition hh_mm (d : datetime) : string :=
  zfill 2 (hour d) +:+ ":" +:+ zfill 2 (minute d).

(** The [generate_time] variable of the user-schedule template *)
Definition generate_time_of (w : world) (date : option datetime) : string :=
  strftime (now w (readings_before_generate_time date) utc8)
           "%Y-%m-%d %H:%M:%S".

(** The [date_range] variable of the ranking template *)
Definition date_range_of (start_date end_date : date) : string :=
  date_strftime start_date "%Y/%m/%d" +:+ " - "
  +:+ date_strftime end_date "%Y/%m/%d".

(** A ranking entry that has the four fields of the data model, its
    duration being a [timedelta]. *)
Definition complete_entry (data : gmap string pyval) : Prop :=
  (exists t, data !! "total_duration" = Some (PyTimedelta t)) /\
  is_Some (data !! "course_count") /\
  is_Some (data !! "user_id") /\
  is_Some (data !! "nickname").

(** A ranking entry that lacks one of the four keys. *)
Definition missing_required (data : gmap string pyval) : Prop :=
  data !! "total_duration" = None \/ data !! "course_count" = None \/
  data !! "user_id" = None \/ data !! "nickname" = None.

(** A time field as the data model has it: absent, [None] or a timestamp. *)
Definition optional_timestamp (o : option pyval) : Prop :=
  o = None \/ o = Some PyNone \/ exists d, o = Some (PyDatetime d).

(** The rank-class of the entry at position [i] (counted from 0), as the
    specification lists it. *)
Definition spec_rank_class (i : nat) : string :=
  match i with
  | 0%nat => "first"
  | 1%nat => "second"
  | 2%nat => "third"
  | _ => "other"
  end.

(** [timedelta(seconds=S)] for an [int] S *)
Definition timedelta_of_seconds (S : Z) : timedelta :=
  mktimedelta (S / 86400) (S mod 86400) 0.

(** The whole seconds of a duration *)
Definition whole_seconds (t : timedelta) : Z := days t * 86400 + seconds t.

(** The duration text of the specification for [S] whole seconds *)
Definition spec_duration (S : Z) : string :=
  str_of_Z (S / 3600) +:+ "h " +:+ str_of_Z ((S mod 3600) / 60) +:+ "m".

(** The exception that comes out of a call, if one does *)
Definition raised {A} (r : result A) : option exn :=
  match r with
  | Ok _ => None
  | Raise e => Some e
  end.

(** The handle that comes out of a call, if one does *)
Definition returned {A} (r : result A) : option A :=
  match r with
  | Ok a => Some a
  | Raise _ => None
  end.

(** An exception of a class named [RenderError] *)
Definition is_RenderError (e : exn) : bool :=
  String.eqb (exn_class e) "RenderError".

(** The three public operations as one family of calls *)
Inductive call :=
| CallSchedule (courses : list (gmap string pyval))
| CallUserSchedule (courses : list (gmap string pyval)) (nickname : string)
                   (date : option datetime)
| CallRanking (ranking_data : list (gmap string pyval))
              (start_date end_date : date).

Definition run (w : world) (c : call) : M string :=
  match c with
  | CallSchedule courses => generate_schedule_image w courses
  | CallUserSchedule courses nickname date =>
      generate_user_schedule_image w courses nickname date
  | CallRanking ranking_data start_date end_date =>
      generate_ranking_image w ranking_data start_date end_date
  end.

(** ** Sample inputs *)

Module Sample.

Definition png : bytes := [Byte.x89; Byte.x50; Byte.x4e; Byte.x47].

Definition monday_morning : datetime := mkdatetime (mkdate 2024 1 1) 9 30 0 0.

(** A world in which every collaborator does its work *)
Definition good_world : world :=
  mkworld (fun _ _ => monday_morning)
          (fun _ _ _ _ _ => Ok png)
          (fun _ => Ok "/tmp/tmpk3v9.png")
          (fun _ _ => Ok tt)
          (fun _ => Ok tt).

(** jinja2 does not find the template *)
Definition TemplateNotFound : exn :=
  mkexn "TemplateNotFound" "group_schedule.html".

Definition no_template_world : world :=
  mkworld (fun _ _ => monday_morning)
          (fun _ _ _ _ _ => Raise TemplateNotFound)
          (fun _ => Ok "/tmp/tmpk3v9.png")
          (fun _ _ => Ok tt)
          (fun _ => Ok tt).

(** The disk is full when the image is written *)
Definition disk_full : exn :=
  mkexn "OSError" "[Errno 28] No space left on device".

Definition full_disk_world : world :=
  mkworld (fun _ _ => monday_morning)
          (fun _ _ _ _ _ => Ok png)
          (fun _ => Ok "/tmp/tmpk3v9.png")
          (fun _ _ => Raise disk_full)
          (fun _ => Ok tt).

(** The module-level [image_generator], no error logged, no file written *)
Definition fresh : state :=
  mkstate (__init__ "/plugin/templates" "/plugin/resources/font.ttf") [] ∅.

Definition entry (uid : Z) (nick : string) (secs : Z) (n : Z)
  : gmap string pyval :=
  <["user_id" := PyInt uid]>
    (<["nickname" := PyStr nick]>
       (<["total_duration" := PyTimedelta (timedelta_of_seconds secs)]>
          (<["course_count" := PyInt n]> ∅))).

Definition alice := entry 123456 "alice" 3661 2.
Definition bob := entry 234567 "bob" 7200 4.
Definition carol := entry 345678 "carol" 59 1.
Definition dave := entry 456789 "dave" 0 0.

(** [dave] without a nickname *)
Definition anonymous : gmap string pyval := delete "nickname" dave.

Definition eight : datetime := mkdatetime (mkdate 2024 3 9) 8 5 0 0.
Definition quarter_to_ten : datetime := mkdatetime (mkdate 2024 3 9) 9 45 30 0.

Definition lecture : gmap string pyval :=
  <["summary" := PyStr "Algebra"]>
    (<["location" := PyNone]>
       (<["start_time" := PyDatetime eight]>
          (<["end_time" := PyDatetime quarter_to_ten]> ∅))).

(** A course whose end is not known: the key is there, the value is [None] *)
Definition open_ended : gmap string pyval :=
  <["summary" := PyStr "Seminar"]>
    (<["start_time" := PyDatetime eight]> (<["end_time" := PyNone]> ∅)).

(** A course with no time keys at all *)
Definition untimed : gmap string pyval := {["summary" := PyStr "Reading"]}.

End Sample.

(** ** Vocabulary of the further statements *)

(** The text that opens the log line of each operation *)
Definition failure_text (c : call) : string :=
  match c with
  | CallSchedule _ => "生成群课程表图片失败"
  | CallUserSchedule _ _ _ => "生成用户课程表图片失败"
  | CallRanking _ _ _ => "生成排行榜图片失败"
  end.

(** The keyword arguments of one [template_to_pic] call, [template_path]
    apart *)
Record request := mkrequest {
  req_name : string;
  req_data : template_data;
  req_max_width : Z;
  req_device_height : Z
}.

(** What a call asks of the renderer, or the exception met while the
    template data are prepared *)
Definition request_of (w : world) (c : call) : result request :=
  match c with
  | CallSchedule courses =>
      Ok (mkrequest "group_schedule.html" (GroupScheduleData courses) 1200 800)
  | CallUserSchedule courses nickname date =>
      title_lines <- make_title_lines w nickname date ;;
      formatted_courses <- format_courses courses ;;
      Ok (mkrequest "user_schedule.html"
            (UserScheduleData title_lines formatted_courses
                              (generate_time_of w date)) 1000 600)
  | CallRanking ranking_data start_date end_date =>
      formatted_ranking_data <- format_ranking ranking_data ;;
      Ok (mkrequest "ranking.html"
            (RankingData (date_range_of start_date end_date)
                         formatted_ranking_data) 1200 800)
  end.

(** An object with a [strftime] method, among those of [pyval] *)
Definition is_datetime (v : pyval) : bool :=
  match v with
  | PyDatetime _ => true
  | _ => false
  end.

(** A course entry whose time fields the loop body can handle: one of them
    is false as a condition, or both are timestamps. *)
Definition formattable (course : gmap string pyval) : bool :=
  let start_time := dict_get course "start_time" in
  let end_time := dict_get course "end_time" in
  negb (truthy start_time && truthy end_time)
  || (is_datetime start_time && is_datetime end_time).

(** Several calls one after the other, each in the world of its moment and
    each run to its return or to its [Exception]; the answers are kept in
    order. *)
Fixpoint run_all (calls : list (world * call)) (s : state)
  : state * list (result string) :=
  match calls with
  | [] => (s, [])
  | (w, c) :: rest =>
      let '(s1, r) := run w c s in
      let '(s2, rs) := run_all rest s1 in
      (s2, r :: rs)
  end.

(** The log line a call adds for its answer: none when it returned *)
Definition log_lines (c : call) (r : result string) : list string :=
  match r with
  | Ok _ => []
  | Raise e => [failure_text c +:+ ": " +:+ exn_str e]
  end.

(** *** Paths of the package *)

(** An absolute [pathlib.Path]: its anchor and the components after it *)
Record Path := mkpath { anchor : string; parts : list string }.

(** [p.parent]: the last component is dropped; the anchor is its own parent *)
Definition parent (p : Path) : Path := mkpath (anchor p) (removelast (parts p)).

(** [p / name] for a relative one-component [name] *)
Definition joinpath (p : Path) (name : string) : Path :=
  mkpath (anchor p) (parts p ++ [name]).

(** The two modules of the package, for a package installed at [pkg] *)
Definition generator_file (pkg : Path) : Path :=
  joinpath (joinpath pkg "utils") "html_image_generator.py".

Definition config_file (pkg : Path) : Path := joinpath pkg "config.py".

(** [fontconfig_path], from the [__file__] of html_image_generator.py *)
Definition fontconfig_path (file : Path) : Path :=
  joinpath (joinpath (parent (parent file)) "resources") "fonts.conf".

(** The [template_path] of [__init__], from the same [__file__] *)
Definition templates_dir (file : Path) : Path :=
  joinpath (parent (parent file)) "templates".

(** The default of [Config.course_font_path], from the [__file__] of
    config.py *)
Definition default_font_path (file : Path) : Path :=
  joinpath (joinpath (parent file) "resources") "MapleMono-NF-CN-Medium.ttf".

(** ** Sample evaluations of the Python layer *)

Example str_of_Z_samples :
  str_of_Z 0 = "0" /\ str_of_Z 123456 = "123456" /\ str_of_Z (-7) = "-7".
Proof. repeat split; reflexivity. Qed.

Example zfill_samples : zfill 2 5 = "05" /\ zfill 2 12 = "12" /\ zfill 4 987 = "0987".
Proof. repeat split; reflexivity. Qed.

(** 2024-01-01 was a Monday, 2000-02-29 a Tuesday, 2023-12-31 a Sunday. *)
Example weekday_samples :
  date_weekday (mkdate 2024 1 1) = 0 /\
  date_weekday (mkdate 2000 2 29) = 1 /\
  date_weekday (mkdate 2023 12 31) = 6.
Proof. repeat split; reflexivity. Qed.

Example strftime_samples :
  strftime (mkdatetime (mkdate 2024 3 9) 8 5 7 0) "%m-%d " = "03-09 " /\
  strftime (mkdatetime (mkdate 2024 3 9) 8 5 7 0) "%H:%M" = "08:05" /\
  strftime (mkdatetime (mkdate 2024 3 9) 8 5 7 0) "%Y-%m-%d %H:%M:%S"
    = "2024-03-09 08:05:07".
Proof. repeat split; reflexivity. Qed.

Example format_courses_samples :
  format_courses [Sample.lecture; Sample.open_ended; Sample.untimed]
  = Ok [mkcourse "08:05 - 09:45" [PyStr "Algebra"; PyNone; PyStr "未知教师"];
        mkcourse "时间未知" [PyStr "Seminar"; PyStr "未知地点"; PyStr "未知教师"];
        mkcourse "时间未知" [PyStr "Reading"; PyStr "未知地点"; PyStr "未知教师"]].
Proof. reflexivity. Qed.

Example format_ranking_samples :
  format_ranking [Sample.bob; Sample.alice]
  = Ok [mkrank 0 "1" "first" "https://q1.qlogo.cn/g?b=qq&nk=234567&s=100"
               (PyStr "bob") "2h 0m" "4 节";
        mkrank 1 "2" "second" "https://q1.qlogo.cn/g?b=qq&nk=123456&s=100"
               (PyStr "alice") "1h 1m" "2 节"].
Proof. reflexivity. Qed.

Example title_samples :
  make_title_lines Sample.good_world "alice" None
  = Ok ["alice的"; "今日课程（周一）"] /\
  make_title_lines Sample.good_world "alice" (Some Sample.eight)
  = Ok ["alice的"; "03-09 课程（周六）"].
Proof. split; reflexivity. Qed.

(** A duration that is not a [timedelta] has no [total_seconds]. *)
Example format_rank_wrong_duration :
  format_rank 0 (<["total_duration" := PyInt 3661]> Sample.alice)
  = Raise (mkexn "AttributeError"
                 "'int' object has no attribute 'total_seconds'").
Proof. reflexivity. Qed.

(** A truthy start that is not a timestamp has no [strftime]. *)
Example format_course_wrong_time :
  format_course (<["start_time" := PyStr "08:05"]> Sample.lecture)
  = Raise (mkexn "AttributeError" "'str' object has no attribute 'strftime'").
Proof. reflexivity. Qed.

Example generate_user_schedule_image_sample :
  generate_user_schedule_image Sample.good_world
    [Sample.lecture; Sample.untimed] "alice" None Sample.fresh
  = (mkstate (self Sample.fresh) []
       {["/tmp/tmpk3v9.png" := Sample.png]},
     Ok "/tmp/tmpk3v9.png").
Proof. vm_compute. reflexivity. Qed.

(** ** The state and error plumbing *)

Section Plumbing.
Context {A : Type}.

Lemma try_log_returns (what : string) (body : M A) (s s' : state) (a : A) :
  body s = (s', Ok a) -> try_log what body s = (s', Ok a).
Proof. intros Hb. unfold try_log. now rewrite Hb. Qed.

Lemma try_log_raises (what : string) (body : M A) (s s' : state) (e : exn) :
  body s = (s', Raise e) ->
  try_log what body s
  = (mkstate (self s') (log s' ++ [what +:+ ": " +:+ exn_str e]) (files s'),
     Raise e).
Proof. intros Hb. unfold try_log. now rewrite Hb. Qed.

Lemma try_log_self (what : string) (body : M A) (s : state) :
  self (fst (body s)) = self s ->
  self (fst (try_log what body s)) = self s.
Proof.
  unfold try_log. destruct (body s) as [s' [a | e]]; simpl; auto.
Qed.

Lemma mbind_lift_ok {B} (r : result B) (b : B) (k : B -> M A) (s : state) :
  r = Ok b -> mbind (lift r) k s = k b s.
Proof. intros ->. reflexivity. Qed.

Lemma mbind_lift_raise {B} (r : result B) (e : exn) (k : B -> M A) (s : state) :
  r = Raise e -> mbind (lift r) k s = (s, Raise e).
Proof. intros ->. reflexivity. Qed.
End Plumbing.

(** ** The renderer call and the temporary file *)

Lemma render_and_save_returns w name data mw dh img path (s : state) :
  io_succeeds w (template_path (self s)) name data mw dh img path ->
  render_and_save w name data mw dh s
  = (mkstate (self s) (log s) (<[path := img]> (<[path := []]> (files s))),
     Ok path).
Proof.
  intros (Hr & Hc & Hw & Hcl).
  unfold render_and_save, save_png, mbind, get_self, lift, set_file, mret.
  simpl. now rewrite Hr, Hc, Hw, Hcl.
Qed.

Lemma render_and_save_raises w name data mw dh e (s : state) :
  io_fails w (template_path (self s)) name data mw dh e ->
  exists fs, render_and_save w name data mw dh s
             = (mkstate (self s) (log s) fs, Raise e).
Proof.
  unfold render_and_save, save_png, mbind, get_self, lift, set_file, mret.
  intros [Hr | img Hr Hc | img path Hr Hc Hw | img path Hr Hc Hw Hcl]; simpl.
  - rewrite Hr. exists (files s). now destruct s.
  - rewrite Hr, Hc. exists (files s). now destruct s.
  - rewrite Hr, Hc, Hw. now eexists.
  - rewrite Hr, Hc, Hw, Hcl. now eexists.
Qed.

Lemma render_and_save_self w name data mw dh (s : state) :
  self (fst (render_and_save w name data mw dh s)) = self s.
Proof.
  unfold render_and_save, save_png, mbind, get_self, lift, set_file, mret.
  simpl.
  destruct (template_to_pic w _ name data mw dh) as [img | e]; [| reflexivity].
  destruct (NamedTemporaryFile w ".png") as [path | e]; [| reflexivity].
  destruct (file_write w path img) as [u | e]; [| reflexivity].
  destruct (file_close w path) as [u' | e]; reflexivity.
Qed.

(** The answer of the last two steps reads the generator and nothing else
    of the state. *)
Lemma render_and_save_answer w name data mw dh (s1 s2 : state) :
  self s1 = self s2 ->
  snd (render_and_save w name data mw dh s1)
  = snd (render_and_save w name data mw dh s2).
Proof.
  intros Hs.
  unfold render_and_save, save_png, mbind, get_self, lift, set_file, mret.
  simpl. rewrite Hs.
  destruct (template_to_pic w _ name data mw dh) as [img | e]; [| reflexivity].
  destruct (NamedTemporaryFile w ".png") as [path | e]; [| reflexivity].
  destruct (file_write w path img) as [u | e]; [| reflexivity].
  destruct (file_close w path) as [u' | e]; reflexivity.
Qed.

(** ** Each operation is its formatting followed by the last two steps *)

Lemma generate_schedule_image_steps w courses (s : state) :
  generate_schedule_image w courses s
  = try_log "生成群课程表图片失败"
      (render_and_save w "group_schedule.html" (GroupScheduleData courses)
                       1200 800) s.
Proof. reflexivity. Qed.

Lemma generate_user_schedule_image_steps w courses nickname date (s : state) :
  generate_user_schedule_image w courses nickname date s
  = try_log "生成用户课程表图片失败"
      (title_lines <~ lift (make_title_lines w nickname date) ;;
       formatted_courses <~ lift (format_courses courses) ;;
       render_and_save w "user_schedule.html"
         (UserScheduleData title_lines formatted_courses
                           (generate_time_of w date)) 1000 600) s.
Proof. reflexivity. Qed.

Lemma generate_ranking_image_steps w ranking_data start_date end_date
    (s : state) :
  generate_ranking_image w ranking_data start_date end_date s
  = try_log "生成排行榜图片失败"
      (formatted_ranking_data <~ lift (format_ranking ranking_data) ;;
       render_and_save w "ranking.html"
         (RankingData (date_range_of start_date end_date)
                      formatted_ranking_data) 1200 800) s.
Proof. reflexivity. Qed.

(** ** The title of the personal schedule *)

Lemma date_weekday_range (d : date) : 0 <= date_weekday d < 7.
Proof. unfold date_weekday. apply Z.mod_pos_bound. lia. Qed.

Lemma weeklist_getitem (wd : Z) :
  0 <= wd < 7 -> list_getitem weeklist wd = Ok (weekday_name wd).
Proof.
  intros Hwd.
  assert (Hcases : wd = 0 \/ wd = 1 \/ wd = 2 \/ wd = 3 \/ wd = 4 \/ wd = 5
                   \/ wd = 6) by lia.
  repeat (destruct Hcases as [-> | Hcases]; [reflexivity |]).
  now subst wd.
Qed.

Lemma strftime_month_day (d : datetime) :
  strftime d "%m-%d "
  = zfill 2 (month (dt_date d)) +:+ "-" +:+ zfill 2 (day (dt_date d)) +:+ " ".
Proof. reflexivity. Qed.

Lemma append_empty (s : string) : s +:+ "" = s.
Proof.
  induction s as [| c s IH]; [reflexivity |].
  change (String c (s +:+ "") = String c s). now rewrite IH.
Qed.

Lemma append_assoc (s1 s2 s3 : string) :
  (s1 +:+ s2) +:+ s3 = s1 +:+ (s2 +:+ s3).
Proof.
  induction s1 as [| c s1 IH]; [reflexivity |].
  change (String c ((s1 +:+ s2) +:+ s3) = String c (s1 +:+ (s2 +:+ s3))).
  now rewrite IH.
Qed.

Lemma strftime_hour_minute (d : datetime) : strftime d "%H:%M" = hh_mm d.
Proof.
  unfold hh_mm. rewrite <- (append_empty (zfill 2 (minute d))). reflexivity.
Qed.

Lemma make_title_lines_total w nickname date :
  make_title_lines w nickname date = Ok (spec_title_lines w nickname date).
Proof.
  unfold make_title_lines, spec_title_lines, weekday.
  destruct date as [d |].
  - rewrite (weeklist_getitem _ (date_weekday_range (dt_date d))).
    now rewrite strftime_month_day.
  - now rewrite (weeklist_getitem _ (date_weekday_range _)).
Qed.

(** C5. For every nickname and optional reference date, the title handed to
    the user-schedule template has two lines. The first is the nickname
    followed by "的". The second starts with "今日" when no date is given and
    with the date written as two-digit month, "-", two-digit day and a space
    when one is given; it ends with the weekday name taken from the table
    of seven names, indexed by [weekday()] (Monday is entry 0) of the given
    date, or else of the clock read in the zone eight hours ahead of UTC. *)
Theorem user_schedule_title w courses nickname date (s : state) :
  make_title_lines w nickname date
  = Ok [nickname +:+ "的";
        match date with
        | None => "今日"
        | Some d => zfill 2 (month (dt_date d)) +:+ "-"
                    +:+ zfill 2 (day (dt_date d)) +:+ " "
        end
        +:+ "课程（"
        +:+ weekday_name
              (date_weekday
                 (dt_date match date with
                          | Some d => d
                          | None => now w 0%nat (mktimedelta 0 28800 0)
                          end))
        +:+ "）"]
  /\ weeklist = ["周一"; "周二"; "周三"; "周四"; "周五"; "周六"; "周日"]
  /\ (forall d : Py.date,
        0 <= date_weekday d < 7 /\
        list_getitem weeklist (date_weekday d) = Ok (weekday_name (date_weekday d)))
  /\ date_weekday (mkdate 2024 1 1) = 0
  /\ (forall y m d,
        date_weekday (mkdate y m (d + 1)) = (date_weekday (mkdate y m d) + 1) mod 7)
  /\ generate_user_schedule_image w courses nickname date s
     = try_log "生成用户课程表图片失败"
         (formatted_courses <~ lift (format_courses courses) ;;
          render_and_save w "user_schedule.html"
            (UserScheduleData (spec_title_lines w nickname date)
                              formatted_courses (generate_time_of w date))
            1000 600) s.
Proof.
  split; [| split; [| split; [| split; [| split]]]].
  - rewrite make_title_lines_total. unfold spec_title_lines.
    now destruct date.
  - reflexivity.
  - intros d. split; [apply date_weekday_range |].
    apply weeklist_getitem, date_weekday_range.
  - reflexivity.
  - intros y m d. unfold date_weekday, toordinal, _ymd2ord. simpl.
    rewrite Z.add_mod_idemp_l by lia. f_equal. lia.
  - rewrite generate_user_schedule_image_steps.
    unfold try_log, mbind at 1. unfold lift at 1.
    now rewrite make_title_lines_total.
Qed.

(** ** The entries of the personal schedule *)

Lemma format_course_missing_time (course : gmap string pyval) :
  course !! "start_time" = None \/ course !! "end_time" = None ->
  format_course course
  = Ok (mkcourse "时间未知"
          [default (PyStr "无课程信息") (course !! "summary");
           default (PyStr "未知地点") (course !! "location");
           default (PyStr "未知教师") (course !! "description")]).
Proof.
  unfold format_course, dict_get, dict_get_default.
  intros [-> | ->]; simpl; [reflexivity |].
  now rewrite andb_false_r.
Qed.

Lemma format_course_none_time (course : gmap string pyval) :
  course !! "start_time" = Some PyNone \/ course !! "end_time" = Some PyNone ->
  format_course course
  = Ok (mkcourse "时间未知"
          [default (PyStr "无课程信息") (course !! "summary");
           default (PyStr "未知地点") (course !! "location");
           default (PyStr "未知教师") (course !! "description")]).
Proof.
  unfold format_course, dict_get, dict_get_default.
  intros [-> | ->]; simpl; [reflexivity |].
  now rewrite andb_false_r.
Qed.

Lemma format_course_timestamps (course : gmap string pyval) (st en : datetime) :
  course !! "start_time" = Some (PyDatetime st) ->
  course !! "end_time" = Some (PyDatetime en) ->
  format_course course
  = Ok (mkcourse (hh_mm st +:+ " - " +:+ hh_mm en)
          [default (PyStr "无课程信息") (course !! "summary");
           default (PyStr "未知地点") (course !! "location");
           default (PyStr "未知教师") (course !! "description")]).
Proof.
  unfold format_course, dict_get, dict_get_default.
  intros -> ->. simpl. now rewrite !strftime_hour_minute.
Qed.

Lemma format_course_detail_lines (course : gmap string pyval) fc :
  format_course course = Ok fc ->
  detail_lines fc
  = [default (PyStr "无课程信息") (course !! "summary");
     default (PyStr "未知地点") (course !! "location");
     default (PyStr "未知教师") (course !! "description")].
Proof.
  unfold format_course, dict_get_default.
  destruct (truthy _ && truthy _).
  - destruct (py_strftime (dict_get course "start_time") _); [| discriminate].
    destruct (py_strftime (dict_get course "end_time") _); [| discriminate].
    simpl. now intros [= <-].
  - simpl. now intros [= <-].
Qed.

Lemma format_course_optional (course : gmap string pyval) :
  optional_timestamp (course !! "start_time") ->
  optional_timestamp (course !! "end_time") ->
  exists fc, format_course course = Ok fc.
Proof.
  intros [Hs | [Hs | [st Hs]]] [He | [He | [en He]]];
    try (rewrite format_course_missing_time by auto; now eexists);
    try (rewrite format_course_none_time by auto; now eexists).
  rewrite (format_course_timestamps _ _ _ Hs He). now eexists.
Qed.

(** The loop formats the entries one by one, in the order received. *)
Lemma format_courses_Forall2 courses fcs :
  format_courses courses = Ok fcs <->
  Forall2 (fun course fc => format_course course = Ok fc) courses fcs.
Proof.
  revert fcs. induction courses as [| course rest IH]; intros fcs; simpl.
  - split.
    + intros [= <-]. constructor.
    + intros H. now inversion H.
  - destruct (format_course course) as [fc | e] eqn:Hfc; simpl.
    + destruct (format_courses rest) as [fcs' | e] eqn:Hrest; simpl.
      * split.
        -- intros [= <-]. constructor; [assumption | now apply IH].
        -- intros H. inversion H as [| ? fc' ? fcs'' Hhd Htl]; subst.
           apply IH in Htl. congruence.
      * split; [discriminate |].
        intros H. inversion H as [| ? fc' ? fcs'' Hhd Htl]; subst.
        apply IH in Htl. discriminate.
    + split; [discriminate |].
      intros H. inversion H; subst. congruence.
Qed.

Lemma format_courses_total courses :
  Forall (fun course => exists fc, format_course course = Ok fc) courses ->
  exists fcs, format_courses courses = Ok fcs.
Proof.
  induction 1 as [| course rest [fc Hfc] _ [fcs Hfcs]]; simpl.
  - now eexists.
  - rewrite Hfc. simpl. rewrite Hfcs. simpl. now eexists.
Qed.

Lemma user_schedule_formatted w courses nickname date fcs (s : state) :
  format_courses courses = Ok fcs ->
  generate_user_schedule_image w courses nickname date s
  = try_log "生成用户课程表图片失败"
      (render_and_save w "user_schedule.html"
         (UserScheduleData (spec_title_lines w nickname date) fcs
                           (generate_time_of w date)) 1000 600) s.
Proof.
  intros Hf. rewrite generate_user_schedule_image_steps.
  unfold try_log, mbind at 1 2, lift at 1 2.
  now rewrite make_title_lines_total, Hf.
Qed.

(** C2. For every course entry given to the personal-schedule operation:
    when [start_time] or [end_time] is missing, formatting the entry does
    not raise and its time string is exactly "时间未知"; when both are
    timestamps, its time string is the two times written as two-digit hour,
    ":", two-digit minute, joined by " - ". The loop puts the result at the
    entry's own position, and the list it builds is what the renderer
    receives. *)
Theorem user_schedule_time_str w courses nickname date (s : state)
    (i : nat) (course : gmap string pyval) :
  courses !! i = Some course ->
  (course !! "start_time" = None \/ course !! "end_time" = None ->
   exists fc, format_course course = Ok fc /\ time_str fc = "时间未知")
  /\ (forall st en,
        course !! "start_time" = Some (PyDatetime st) ->
        course !! "end_time" = Some (PyDatetime en) ->
        exists fc, format_course course = Ok fc /\
          time_str fc
          = zfill 2 (hour st) +:+ ":" +:+ zfill 2 (minute st) +:+ " - "
            +:+ zfill 2 (hour en) +:+ ":" +:+ zfill 2 (minute en))
  /\ (forall fcs, format_courses courses = Ok fcs ->
        (exists fc, fcs !! i = Some fc /\ format_course course = Ok fc) /\
        generate_user_schedule_image w courses nickname date s
        = try_log "生成用户课程表图片失败"
            (render_and_save w "user_schedule.html"
               (UserScheduleData (spec_title_lines w nickname date) fcs
                                 (generate_time_of w date)) 1000 600) s)
  /\ (Forall (fun c => optional_timestamp (c !! "start_time") /\
                       optional_timestamp (c !! "end_time")) courses ->
      exists fcs, format_courses courses = Ok fcs).
Proof.
  intros Hi. split; [| split; [| split]].
  - intros Hmiss. rewrite (format_course_missing_time _ Hmiss). now eexists.
  - intros st en Hs He. rewrite (format_course_timestamps _ _ _ Hs He).
    eexists. split; [reflexivity |]. simpl. unfold hh_mm.
    now rewrite !append_assoc.
  - intros fcs Hf. split; [| now apply user_schedule_formatted].
    apply format_courses_Forall2 in Hf.
    destruct (Forall2_lookup_l _ _ _ _ _ Hf Hi) as (fc & Hfc & Hok).
    now exists fc.
  - intros Hall. apply format_courses_total.
    eapply Forall_impl; [exact Hall |].
    intros c [Hs He]. now apply format_course_optional.
Qed.

Lemma user_schedule_time_str_witness :
  [Sample.untimed; Sample.lecture] !! 1%nat = Some Sample.lecture /\
  (exists fc, format_course Sample.untimed = Ok fc /\ time_str fc = "时间未知") /\
  (exists fc, format_course Sample.lecture = Ok fc /\
              time_str fc = "08:05 - 09:45").
Proof.
  split; [reflexivity |]. split.
  - apply (proj1 (user_schedule_time_str Sample.good_world
                    [Sample.untimed; Sample.lecture] "alice" None Sample.fresh
                    0%nat Sample.untimed eq_refl)).
    left. reflexivity.
  - apply (proj1 (proj2 (user_schedule_time_str Sample.good_world
                           [Sample.untimed; Sample.lecture] "alice" None
                           Sample.fresh 1%nat Sample.lecture eq_refl))
             Sample.eight Sample.quarter_to_ten); reflexivity.
Defined.

(** C9. In the personal-schedule operation the three detail lines are the
    values stored under [summary], [location] and [description]; the
    placeholder ("无课程信息", "未知地点", "未知教师") stands in exactly when
    the key is absent, so a key stored with the value [None] gives the line
    [None]. The time placeholder "时间未知" is also used when [start_time]
    or [end_time] is stored with the value [None]. *)
Theorem user_schedule_detail_defaults (course : gmap string pyval) :
  (forall fc, format_course course = Ok fc ->
     detail_lines fc
     = [match course !! "summary" with
        | None => PyStr "无课程信息" | Some v => v end;
        match course !! "location" with
        | None => PyStr "未知地点" | Some v => v end;
        match course !! "description" with
        | None => PyStr "未知教师" | Some v => v end])
  /\ (optional_timestamp (course !! "start_time") ->
      optional_timestamp (course !! "end_time") ->
      exists fc, format_course course = Ok fc)
  /\ (course !! "start_time" = Some PyNone \/
      course !! "end_time" = Some PyNone ->
      exists fc, format_course course = Ok fc /\ time_str fc = "时间未知").
Proof.
  split; [| split].
  - intros fc Hfc. rewrite (format_course_detail_lines _ _ Hfc).
    now destruct (course !! "summary"), (course !! "location"),
      (course !! "description").
  - apply format_course_optional.
  - intros Hnone. rewrite (format_course_none_time _ Hnone). now eexists.
Qed.

Lemma user_schedule_detail_defaults_witness :
  (exists fc, format_course Sample.lecture = Ok fc /\
     detail_lines fc = [PyStr "Algebra"; PyNone; PyStr "未知教师"]) /\
  (exists fc, format_course Sample.open_ended = Ok fc /\
     time_str fc = "时间未知").
Proof.
  split.
  - destruct (proj1 (proj2 (user_schedule_detail_defaults Sample.lecture)))
      as [fc Hfc].
    + right. right. exists Sample.eight. reflexivity.
    + right. right. exists Sample.quarter_to_ten. reflexivity.
    + exists fc. split; [exact Hfc |].
      exact (proj1 (user_schedule_detail_defaults Sample.lecture) fc Hfc).
  - apply (proj2 (proj2 (user_schedule_detail_defaults Sample.open_ended))).
    right. reflexivity.
Defined.

(** ** Durations

    The lemmas of this section are about the exact value of
    [total_seconds]. *)

Lemma Qfloor_div_pos (n : Z) (d c : positive) :
  Qfloor (Qmake n d / inject_Z (Z.pos c)) = n / Z.pos (d * c).
Proof.
  unfold Qfloor, Qdiv, Qmult, Qinv, inject_Z. simpl.
  now rewrite Z.mul_1_r.
Qed.

Lemma int_of_float_inject_Z (z : Z) : int_of_float (inject_Z z) = z.
Proof. unfold int_of_float, inject_Z. simpl. apply Z.quot_1_r. Qed.

Lemma div_micro (W u c : Z) :
  0 <= u < 1000000 -> 0 < c ->
  (W * 1000000 + u) / (1000000 * c) = W / c.
Proof.
  intros Hu Hc.
  rewrite <- Z.div_div by lia.
  rewrite Z.div_add_l by lia.
  now rewrite (Z.div_small u) by lia; rewrite Z.add_0_r.
Qed.

Lemma hours_of_total_seconds (t : timedelta) :
  0 <= microseconds t < 1000000 ->
  float_floordiv (total_seconds t) (inject_Z 3600)
  = inject_Z (whole_seconds t / 3600).
Proof.
  intros Hu. unfold float_floordiv, total_seconds. f_equal.
  rewrite Qfloor_div_pos.
  change (Z.pos (1000000 * 3600)) with (1000000 * 3600).
  now apply div_micro.
Qed.

Lemma minutes_of_total_seconds (t : timedelta) :
  0 <= microseconds t < 1000000 ->
  float_floordiv (float_mod (total_seconds t) (inject_Z 3600)) (inject_Z 60)
  = inject_Z ((whole_seconds t mod 3600) / 60).
Proof.
  intros Hu. unfold float_floordiv, float_mod. f_equal.
  fold (float_floordiv (total_seconds t) (inject_Z 3600)).
  rewrite (hours_of_total_seconds t Hu).
  unfold total_seconds. fold (whole_seconds t).
  set (W := whole_seconds t). set (u := microseconds t) in *.
  assert (Heq : (Qmake (W * 1000000 + u) 1000000
                 - inject_Z 3600 * inject_Z (W / 3600)
                 == Qmake ((W mod 3600) * 1000000 + u) 1000000)%Q).
  { unfold Qeq, Qminus, Qplus, Qopp, Qmult, inject_Z. simpl Qnum. simpl Qden.
    rewrite (Z.mod_eq W 3600) by lia. lia. }
  rewrite Heq. rewrite Qfloor_div_pos.
  change (Z.pos (1000000 * 60)) with (1000000 * 60).
  now apply div_micro.
Qed.

Lemma format_duration_whole (t : timedelta) :
  0 <= microseconds t < 1000000 ->
  format_duration (total_seconds t) = spec_duration (whole_seconds t).
Proof.
  intros Hu. unfold format_duration, spec_duration.
  rewrite (hours_of_total_seconds t Hu), (minutes_of_total_seconds t Hu).
  now rewrite !int_of_float_inject_Z.
Qed.

Lemma whole_seconds_of_seconds (S : Z) :
  whole_seconds (timedelta_of_seconds S) = S.
Proof.
  unfold whole_seconds, timedelta_of_seconds. simpl.
  rewrite (Z.mod_eq S 86400) by lia. lia.
Qed.

(** ** The rows of the ranking *)

Lemma rank_class_of_position (i : nat) :
  rank_class_of (Z.of_nat i + 1) = spec_rank_class i.
Proof.
  destruct i as [| [| [| i]]]; try reflexivity.
  unfold rank_class_of, spec_rank_class.
  replace (Z.of_nat (S (S (S i))) + 1 =? 1) with false by (symmetry; apply Z.eqb_neq; lia).
  replace (Z.of_nat (S (S (S i))) + 1 =? 2) with false by (symmetry; apply Z.eqb_neq; lia).
  replace (Z.of_nat (S (S (S i))) + 1 =? 3) with false by (symmetry; apply Z.eqb_neq; lia).
  reflexivity.
Qed.

Lemma format_rank_complete (i : nat) (data : gmap string pyval) t cc uid nick :
  data !! "total_duration" = Some (PyTimedelta t) ->
  data !! "course_count" = Some cc ->
  data !! "user_id" = Some uid ->
  data !! "nickname" = Some nick ->
  format_rank i data
  = Ok (mkrank (Z.of_nat i) (str_of_Z (Z.of_nat i + 1)) (spec_rank_class i)
               (make_avatar_url uid) nick
               (format_duration (total_seconds t)) (py_str cc +:+ " 节")).
Proof.
  intros Ht Hc Hu Hn. unfold format_rank, dict_getitem.
  rewrite Ht, Hc, Hu, Hn. simpl. now rewrite rank_class_of_position.
Qed.

Lemma format_rank_total (i : nat) (data : gmap string pyval) :
  complete_entry data -> exists row, format_rank i data = Ok row.
Proof.
  intros ([t Ht] & [cc Hc] & [uid Hu] & [nick Hn]).
  rewrite (format_rank_complete i data t cc uid nick) by assumption.
  now eexists.
Qed.

(** Whatever row comes out for position [i] carries rank [i + 1], the
    class of that rank, and the entry's own nickname. *)
Lemma format_rank_row (i : nat) (data : gmap string pyval) row :
  format_rank i data = Ok row ->
  row_index row = Z.of_nat i /\
  rank row = str_of_Z (Z.of_nat i + 1) /\
  rank_class row = spec_rank_class i /\
  data !! "nickname" = Some (nickname row).
Proof.
  unfold format_rank, dict_getitem.
  destruct (data !! "total_duration") as [td |]; [| discriminate]. simpl.
  destruct (py_total_seconds td) as [secs | e]; [| discriminate]. simpl.
  destruct (data !! "course_count") as [cc |]; [| discriminate]. simpl.
  destruct (data !! "user_id") as [uid |]; [| discriminate]. simpl.
  destruct (data !! "nickname") as [nick |]; [| discriminate]. simpl.
  intros [= <-]. simpl. now rewrite rank_class_of_position.
Qed.

Lemma format_rank_missing (i : nat) (data : gmap string pyval) :
  missing_required data -> exists e, format_rank i data = Raise e.
Proof.
  intros Hmiss. unfold missing_required in Hmiss.
  unfold format_rank, dict_getitem.
  destruct (data !! "total_duration") as [td |]; [| now eexists]. simpl.
  destruct (py_total_seconds td) as [secs | e]; [| now eexists]. simpl.
  destruct (data !! "course_count") as [cc |]; [| now eexists]. simpl.
  destruct (data !! "user_id") as [uid |]; [| now eexists]. simpl.
  destruct (data !! "nickname") as [nick |]; [| now eexists]. simpl.
  destruct Hmiss as [H | [H | [H | H]]]; discriminate.
Qed.

(** The only exceptions the formatting of an entry can raise *)
Lemma format_rank_raise (i : nat) (data : gmap string pyval) e :
  format_rank i data = Raise e ->
  (exists k, k ∈ ["total_duration"; "course_count"; "user_id"; "nickname"] /\
             data !! k = None /\ e = KeyError k) \/
  (exists v, data !! "total_duration" = Some v /\
             e = AttributeError v "total_seconds").
Proof.
  unfold format_rank, dict_getitem.
  destruct (data !! "total_duration") as [td |] eqn:Htd; simpl.
  2: { intros [= <-]. left. exists "total_duration".
       split; [set_solver | auto]. }
  destruct (py_total_seconds td) as [secs | e'] eqn:Hsecs; simpl.
  2: { intros [= <-]. right. exists td. split; [reflexivity |].
       destruct td; simpl in Hsecs; congruence. }
  destruct (data !! "course_count") as [cc |] eqn:Hcc; simpl.
  2: { intros [= <-]. left. exists "course_count".
       split; [set_solver | auto]. }
  destruct (data !! "user_id") as [uid |] eqn:Huid; simpl.
  2: { intros [= <-]. left. exists "user_id". split; [set_solver | auto]. }
  destruct (data !! "nickname") as [nick |] eqn:Hnick; simpl.
  2: { intros [= <-]. left. exists "nickname". split; [set_solver | auto]. }
  discriminate.
Qed.

Lemma format_ranking_from_raise (k : nat) ranking_data e :
  format_ranking_from k ranking_data = Raise e ->
  exists (i : nat) data,
    ranking_data !! i = Some data /\ format_rank (k + i) data = Raise e.
Proof.
  revert k. induction ranking_data as [| d rest IH]; intros k; simpl.
  - discriminate.
  - destruct (format_rank k d) as [r | e'] eqn:Hr; simpl.
    + destruct (format_ranking_from (S k) rest) as [rs | e'] eqn:Hrs; simpl;
        [discriminate |].
      intros [= <-]. destruct (IH _ Hrs) as (i & data & Hi & Hfmt).
      exists (S i), data. split; [exact Hi |].
      now replace (k + S i)%nat with (S k + i)%nat by lia.
    + intros [= <-]. exists 0%nat, d. split; [reflexivity |].
      now rewrite Nat.add_0_r.
Qed.

Lemma format_ranking_from_lookup (k : nat) ranking_data rows :
  format_ranking_from k ranking_data = Ok rows ->
  length rows = length ranking_data /\
  forall (i : nat) data, ranking_data !! i = Some data ->
    exists row, rows !! i = Some row /\ format_rank (k + i) data = Ok row.
Proof.
  revert k rows. induction ranking_data as [| d rest IH]; intros k rows; simpl.
  - intros [= <-]. split; [reflexivity |]. intros i data Hi. discriminate.
  - destruct (format_rank k d) as [r | e] eqn:Hr; [| discriminate]. simpl.
    destruct (format_ranking_from (S k) rest) as [rs | e] eqn:Hrs;
      [| discriminate]. simpl.
    intros [= <-]. destruct (IH _ _ Hrs) as [Hlen Hrows].
    split; [simpl; now rewrite Hlen |].
    intros [| i] data Hi; simpl in Hi.
    + injection Hi as <-. exists r. now rewrite Nat.add_0_r.
    + destruct (Hrows i data Hi) as (row & Hrow & Hfmt).
      exists row. split; [exact Hrow |].
      now replace (k + S i)%nat with (S k + i)%nat by lia.
Qed.

Lemma format_ranking_from_total (k : nat) ranking_data :
  Forall complete_entry ranking_data ->
  exists rows, format_ranking_from k ranking_data = Ok rows.
Proof.
  intros Hall. revert k.
  induction Hall as [| d rest Hd _ IH]; intros k; simpl.
  - now eexists.
  - destruct (format_rank_total k d Hd) as [r ->]. simpl.
    destruct (IH (S k)) as [rs ->]. simpl. now eexists.
Qed.

Lemma format_ranking_from_missing (k : nat) ranking_data data :
  data ∈ ranking_data -> missing_required data ->
  exists e, format_ranking_from k ranking_data = Raise e.
Proof.
  intros Hin Hmiss. revert k.
  induction Hin as [data rest | data d rest _ IH]; intros k; simpl.
  - destruct (format_rank_missing k data Hmiss) as [e ->]. now eexists.
  - destruct (format_rank k d) as [r | e]; [| now eexists]. simpl.
    destruct (IH Hmiss (S k)) as [e ->]. now eexists.
Qed.

Lemma ranking_formatted w ranking_data start_date end_date rows (s : state) :
  format_ranking ranking_data = Ok rows ->
  generate_ranking_image w ranking_data start_date end_date s
  = try_log "生成排行榜图片失败"
      (render_and_save w "ranking.html"
         (RankingData (date_range_of start_date end_date) rows) 1200 800) s.
Proof.
  intros Hf. rewrite generate_ranking_image_steps.
  unfold try_log, mbind at 1, lift at 1. now rewrite Hf.
Qed.

(** C1. For every sequence of N ranking entries (N = 0 included) that have
    the four fields, the ranking operation builds N rows and hands them to
    the renderer; the row at position i (from 0) is made from the entry at
    position i, so nothing is sorted; its rank is the decimal text of i + 1,
    and its rank-class is "first", "second", "third" for ranks 1, 2, 3 and
    "other" for every rank from 4 on. *)
Theorem ranking_ranks_in_input_order w ranking_data start_date end_date
    (s : state) :
  Forall complete_entry ranking_data ->
  exists rows,
    format_ranking ranking_data = Ok rows /\
    generate_ranking_image w ranking_data start_date end_date s
    = try_log "生成排行榜图片失败"
        (render_and_save w "ranking.html"
           (RankingData (date_range_of start_date end_date) rows) 1200 800) s /\
    length rows = length ranking_data /\
    forall (i : nat) data, ranking_data !! i = Some data ->
      exists row,
        rows !! i = Some row /\
        format_rank i data = Ok row /\
        row_index row = Z.of_nat i /\
        rank row = str_of_Z (Z.of_nat i + 1) /\
        data !! "nickname" = Some (nickname row) /\
        (Z.of_nat i + 1 = 1 -> rank_class row = "first") /\
        (Z.of_nat i + 1 = 2 -> rank_class row = "second") /\
        (Z.of_nat i + 1 = 3 -> rank_class row = "third") /\
        (4 <= Z.of_nat i + 1 -> rank_class row = "other").
Proof.
  intros Hall.
  destruct (format_ranking_from_total 0 ranking_data Hall) as [rows Hrows].
  exists rows. split; [exact Hrows |].
  split; [now apply ranking_formatted |].
  destruct (format_ranking_from_lookup 0 ranking_data rows Hrows)
    as [Hlen Hlook].
  split; [exact Hlen |].
  intros i data Hi. destruct (Hlook i data Hi) as (row & Hrow & Hfmt).
  simpl in Hfmt. exists row. split; [exact Hrow |]. split; [exact Hfmt |].
  destruct (format_rank_row i data row Hfmt) as (Hidx & Hrank & Hcls & Hnick).
  repeat split; try assumption; intros Hi'; rewrite Hcls;
    destruct i as [| [| [| i]]]; (reflexivity || lia).
Qed.

Lemma ranking_ranks_in_input_order_witness :
  Forall complete_entry
    [Sample.alice; Sample.bob; Sample.carol; Sample.dave] /\
  exists rows,
    format_ranking [Sample.alice; Sample.bob; Sample.carol; Sample.dave]
    = Ok rows /\
    rank <$> rows = ["1"; "2"; "3"; "4"] /\
    rank_class <$> rows = ["first"; "second"; "third"; "other"] /\
    nickname <$> rows
    = [PyStr "alice"; PyStr "bob"; PyStr "carol"; PyStr "dave"].
Proof.
  assert (Hall : Forall complete_entry
                   [Sample.alice; Sample.bob; Sample.carol; Sample.dave]).
  { repeat constructor; eexists; reflexivity. }
  split; [exact Hall |].
  destruct (ranking_ranks_in_input_order Sample.good_world
              [Sample.alice; Sample.bob; Sample.carol; Sample.dave]
              (mkdate 2024 1 1) (mkdate 2024 1 7) Sample.fresh Hall)
    as (rows & Hrows & _).
  exists rows. split; [exact Hrows |].
  vm_compute in Hrows. injection Hrows as <-.
  repeat split; reflexivity.
Defined.

(** C4. For every ranking entry whose [total_duration] is a duration of S
    seconds, a whole number below 2^53 in size (every [timedelta] without
    microseconds is one, its days being bounded by 999999999), the duration
    text is the decimal of S div 3600, "h ", the decimal of
    (S mod 3600) div 60, "m": hours and minutes are rounded down and the
    seconds left over are discarded. 3661 seconds give exactly "1h 1m". *)
Theorem ranking_duration_text (i : nat) (data : gmap string pyval)
    (t : timedelta) (S : Z) :
  data !! "total_duration" = Some (PyTimedelta t) ->
  microseconds t = 0 ->
  days t * 86400 + seconds t = S ->
  - 2 ^ 53 < S < 2 ^ 53 ->
  is_Some (data !! "course_count") ->
  is_Some (data !! "user_id") ->
  is_Some (data !! "nickname") ->
  exists row,
    format_rank i data = Ok row /\
    duration_str row
    = str_of_Z (S / 3600) +:+ "h " +:+ str_of_Z ((S mod 3600) / 60) +:+ "m" /\
    (S = 3661 -> duration_str row = "1h 1m") /\
    (forall S', t = timedelta_of_seconds S' -> S' = S).
Proof.
  intros Ht Hu HS Hexact [cc Hc] [uid Hid] [nick Hn].
  rewrite (format_rank_complete i data t cc uid nick) by assumption.
  eexists. split; [reflexivity |]. simpl.
  rewrite (format_duration_whole t) by (rewrite Hu; lia).
  unfold whole_seconds. rewrite HS.
  split; [reflexivity |]. split.
  - intros ->. reflexivity.
  - intros S' ->. rewrite <- HS. symmetry.
    apply (whole_seconds_of_seconds S').
Qed.

Lemma ranking_duration_text_witness :
  exists row, format_rank 0 Sample.alice = Ok row /\ duration_str row = "1h 1m".
Proof.
  destruct (ranking_duration_text 0 Sample.alice (mktimedelta 0 3661 0) 3661)
    as (row & Hrow & _ & H3661 & _).
  - reflexivity.
  - reflexivity.
  - reflexivity.
  - lia.
  - eexists; reflexivity.
  - eexists; reflexivity.
  - eexists; reflexivity.
  - exists row. split; [exact Hrow | exact (H3661 eq_refl)].
Defined.

(** C6. For every ranking entry, the avatar URL is the text
    "https://q1.qlogo.cn/g?b=qq&nk=", then the entry's [user_id] as an
    f-string writes it, then "&s=100"; nothing but the entry is consulted.
    For the user id 123456 it is exactly
    "https://q1.qlogo.cn/g?b=qq&nk=123456&s=100". *)
Theorem ranking_avatar_url (i : nat) (data : gmap string pyval) (uid : pyval) :
  data !! "user_id" = Some uid ->
  (exists t, data !! "total_duration" = Some (PyTimedelta t)) ->
  is_Some (data !! "course_count") ->
  is_Some (data !! "nickname") ->
  exists row,
    format_rank i data = Ok row /\
    avatar_url row = "https://q1.qlogo.cn/g?b=qq&nk=" +:+ py_str uid +:+ "&s=100" /\
    (forall u : Z, uid = PyInt u ->
       avatar_url row
       = "https://q1.qlogo.cn/g?b=qq&nk=" +:+ str_of_Z u +:+ "&s=100") /\
    (uid = PyInt 123456 ->
     avatar_url row = "https://q1.qlogo.cn/g?b=qq&nk=123456&s=100").
Proof.
  intros Hid [t Ht] [cc Hc] [nick Hn].
  rewrite (format_rank_complete i data t cc uid nick) by assumption.
  eexists. split; [reflexivity |]. simpl.
  split; [reflexivity |]. split.
  - intros u ->. reflexivity.
  - intros ->. reflexivity.
Qed.

Lemma ranking_avatar_url_witness :
  exists row,
    format_rank 2 Sample.alice = Ok row /\
    avatar_url row = "https://q1.qlogo.cn/g?b=qq&nk=123456&s=100".
Proof.
  destruct (ranking_avatar_url 2 Sample.alice (PyInt 123456))
    as (row & Hrow & _ & _ & Hurl).
  - reflexivity.
  - eexists; reflexivity.
  - eexists; reflexivity.
  - eexists; reflexivity.
  - exists row. split; [exact Hrow | exact (Hurl eq_refl)].
Defined.

(** C10. The ranking operation requires [total_duration], [course_count],
    [user_id] and [nickname] in every entry: if any entry of the input lacks
    one of these keys, the operation logs one error line that ends with the
    text of the exception, raises that exception, and returns no handle; no
    placeholder is put in the missing field's place, and the renderer is not
    reached. The exception is the one met at the first entry that cannot be
    formatted: the [KeyError] of a missing key, or the [AttributeError] of a
    duration that has no [total_seconds]. *)
Theorem ranking_missing_key_raises w ranking_data start_date end_date
    (s : state) (data : gmap string pyval) :
  data ∈ ranking_data ->
  missing_required data ->
  exists e,
    generate_ranking_image w ranking_data start_date end_date s
    = (mkstate (self s) (log s ++ ["生成排行榜图片失败: " +:+ exn_str e])
               (files s),
       Raise e) /\
    format_ranking ranking_data = Raise e /\
    returned (snd (generate_ranking_image w ranking_data start_date end_date s))
    = None /\
    exists (i : nat) entry,
      ranking_data !! i = Some entry /\
      format_rank i entry = Raise e /\
      ((exists k,
          k ∈ ["total_duration"; "course_count"; "user_id"; "nickname"] /\
          entry !! k = None /\ e = KeyError k) \/
       (exists v, entry !! "total_duration" = Some v /\
                  e = AttributeError v "total_seconds")).
Proof.
  intros Hin Hmiss.
  destruct (format_ranking_from_missing 0 ranking_data data Hin Hmiss)
    as [e He].
  exists e.
  assert (Hrun : generate_ranking_image w ranking_data start_date end_date s
                 = (mkstate (self s)
                      (log s ++ ["生成排行榜图片失败: " +:+ exn_str e])
                      (files s), Raise e)).
  { rewrite generate_ranking_image_steps.
    rewrite (try_log_raises "生成排行榜图片失败" _ s s e); [reflexivity |].
    unfold mbind, lift, format_ranking. now rewrite He. }
  split; [exact Hrun |]. split; [exact He |].
  split; [now rewrite Hrun |].
  destruct (format_ranking_from_raise 0 ranking_data e He)
    as (i & entry & Hi & Hfmt).
  simpl in Hfmt. exists i, entry. split; [exact Hi |].
  split; [exact Hfmt |]. exact (format_rank_raise i entry e Hfmt).
Qed.

Lemma ranking_missing_key_raises_witness :
  Sample.anonymous ∈ [Sample.alice; Sample.anonymous] /\
  missing_required Sample.anonymous /\
  exists e,
    generate_ranking_image Sample.good_world [Sample.alice; Sample.anonymous]
      (mkdate 2024 1 1) (mkdate 2024 1 7) Sample.fresh
    = (mkstate (self Sample.fresh)
         (log Sample.fresh ++ ["生成排行榜图片失败: " +:+ exn_str e])
         (files Sample.fresh),
       Raise e).
Proof.
  assert (Hin : Sample.anonymous ∈ [Sample.alice; Sample.anonymous]).
  { apply list_elem_of_further, list_elem_of_here. }
  assert (Hmiss : missing_required Sample.anonymous).
  { right. right. right. reflexivity. }
  split; [exact Hin |]. split; [exact Hmiss |].
  destruct (ranking_missing_key_raises Sample.good_world
              [Sample.alice; Sample.anonymous] (mkdate 2024 1 1)
              (mkdate 2024 1 7) Sample.fresh Sample.anonymous Hin Hmiss)
    as (e & Hrun & _).
  exists e. exact Hrun.
Defined.

Example ranking_missing_nickname_is_KeyError :
  format_ranking [Sample.alice; Sample.anonymous] = Raise (KeyError "nickname").
Proof. reflexivity. Qed.

(** ** Failure, empty inputs, statelessness *)

Lemma try_log_render_raises what w name data mw dh e (s : state) :
  io_fails w (template_path (self s)) name data mw dh e ->
  exists fs,
    try_log what (render_and_save w name data mw dh) s
    = (mkstate (self s) (log s ++ [what +:+ ": " +:+ exn_str e]) fs, Raise e).
Proof.
  intros Hfail.
  destruct (render_and_save_raises w name data mw dh e s Hfail) as [fs Hfs].
  exists fs. now rewrite (try_log_raises what _ s _ e Hfs).
Qed.

Lemma try_log_render_returns what w name data mw dh img path (s : state) :
  io_succeeds w (template_path (self s)) name data mw dh img path ->
  try_log what (render_and_save w name data mw dh) s
  = (mkstate (self s) (log s) (<[path := img]> (files s)), Ok path).
Proof.
  intros Hok.
  rewrite (try_log_returns what _ s _ path
             (render_and_save_returns w name data mw dh img path s Hok)).
  now rewrite insert_insert_eq.
Qed.

Lemma world_succeeds_io w tp name data mw dh :
  world_succeeds w -> exists img path, io_succeeds w tp name data mw dh img path.
Proof.
  intros (Hr & [path Hc] & Hw & Hcl).
  destruct (Hr tp name data mw dh) as [img Himg].
  exists img, path. repeat split; auto.
Qed.

(** C3, as the code has it. Whenever the renderer, the creation of the
    temporary file, the write to it or its close raises an exception e in
    any of the three operations, the operation adds one line to the error
    log, made of the operation's failure text, ": " and the text of e, and
    then raises e itself, the very exception it caught; it returns no
    handle. *)
Theorem failure_is_logged_and_reraised w (s : state) (e : exn) :
  (forall courses,
     io_fails w (template_path (self s)) "group_schedule.html"
              (GroupScheduleData courses) 1200 800 e ->
     exists fs,
       generate_schedule_image w courses s
       = (mkstate (self s) (log s ++ ["生成群课程表图片失败: " +:+ exn_str e]) fs,
          Raise e))
  /\ (forall courses nickname date fcs,
        format_courses courses = Ok fcs ->
        io_fails w (template_path (self s)) "user_schedule.html"
                 (UserScheduleData (spec_title_lines w nickname date) fcs
                                   (generate_time_of w date)) 1000 600 e ->
        exists fs,
          generate_user_schedule_image w courses nickname date s
          = (mkstate (self s)
               (log s ++ ["生成用户课程表图片失败: " +:+ exn_str e]) fs,
             Raise e))
  /\ (forall ranking_data start_date end_date rows,
        format_ranking ranking_data = Ok rows ->
        io_fails w (template_path (self s)) "ranking.html"
                 (RankingData (date_range_of start_date end_date) rows)
                 1200 800 e ->
        exists fs,
          generate_ranking_image w ranking_data start_date end_date s
          = (mkstate (self s) (log s ++ ["生成排行榜图片失败: " +:+ exn_str e]) fs,
             Raise e)).
Proof.
  split; [| split].
  - intros courses Hfail. rewrite generate_schedule_image_steps.
    destruct (try_log_render_raises "生成群课程表图片失败" _ _ _ _ _ _ _ Hfail)
      as [fs Hfs].
    exists fs. exact Hfs.
  - intros courses nickname date fcs Hf Hfail.
    rewrite (user_schedule_formatted _ _ _ _ _ _ Hf).
    destruct (try_log_render_raises "生成用户课程表图片失败" _ _ _ _ _ _ _ Hfail)
      as [fs Hfs].
    exists fs. exact Hfs.
  - intros ranking_data start_date end_date rows Hf Hfail.
    rewrite (ranking_formatted _ _ _ _ _ _ Hf).
    destruct (try_log_render_raises "生成排行榜图片失败" _ _ _ _ _ _ _ Hfail)
      as [fs Hfs].
    exists fs. exact Hfs.
Qed.

Lemma failure_is_logged_and_reraised_witness :
  exists fs,
    generate_schedule_image Sample.full_disk_world [Sample.lecture] Sample.fresh
    = (mkstate (self Sample.fresh)
         ["生成群课程表图片失败: [Errno 28] No space left on device"] fs,
       Raise Sample.disk_full).
Proof.
  apply (proj1 (failure_is_logged_and_reraised Sample.full_disk_world
                  Sample.fresh Sample.disk_full) [Sample.lecture]).
  apply (write_fails _ _ _ _ _ _ _ Sample.png "/tmp/tmpk3v9.png"); reflexivity.
Defined.

(** C3 as the specification words it does not hold: the exception that
    leaves a failed operation is the renderer's own, of the renderer's
    class. Here the renderer raises jinja2's TemplateNotFound, and what the
    group-schedule operation raises is that TemplateNotFound, not a
    RenderError. *)
Lemma render_failure_is_not_a_RenderError :
  io_fails Sample.no_template_world (template_path (self Sample.fresh))
           "group_schedule.html" (GroupScheduleData []) 1200 800
           Sample.TemplateNotFound
  /\ raised (snd (generate_schedule_image Sample.no_template_world []
                    Sample.fresh))
     = Some Sample.TemplateNotFound
  /\ exn_class Sample.TemplateNotFound = "TemplateNotFound"
  /\ ~ (exists e,
          raised (snd (generate_schedule_image Sample.no_template_world []
                         Sample.fresh)) = Some e
          /\ is_RenderError e = true).
Proof.
  split; [now apply renderer_fails |].
  split; [reflexivity |]. split; [reflexivity |].
  intros (e & He & Hcls). vm_compute in He. injection He as <-.
  discriminate Hcls.
Qed.

(** C7. With a renderer and a temp-file mechanism that do their work, each
    of the three operations, given the empty list, returns the path of a
    file that holds the rendering of a template whose list of courses (or
    of ranking rows) is empty; nothing is logged and nothing is raised. *)
Theorem empty_inputs_render w (s : state) nickname date start_date end_date :
  world_succeeds w ->
  (exists img path,
     template_to_pic w (template_path (self s)) "group_schedule.html"
                     (GroupScheduleData []) 1200 800 = Ok img /\
     generate_schedule_image w [] s
     = (mkstate (self s) (log s) (<[path := img]> (files s)), Ok path))
  /\ (exists img path,
        template_to_pic w (template_path (self s)) "user_schedule.html"
          (UserScheduleData (spec_title_lines w nickname date) []
                            (generate_time_of w date)) 1000 600 = Ok img /\
        generate_user_schedule_image w [] nickname date s
        = (mkstate (self s) (log s) (<[path := img]> (files s)), Ok path))
  /\ (exists img path,
        template_to_pic w (template_path (self s)) "ranking.html"
          (RankingData (date_range_of start_date end_date) []) 1200 800
        = Ok img /\
        generate_ranking_image w [] start_date end_date s
        = (mkstate (self s) (log s) (<[path := img]> (files s)), Ok path)).
Proof.
  intros Hw. split; [| split].
  - destruct (world_succeeds_io w (template_path (self s)) "group_schedule.html"
                (GroupScheduleData []) 1200 800 Hw) as (img & path & Hok).
    exists img, path. split; [apply Hok |].
    rewrite generate_schedule_image_steps.
    now apply try_log_render_returns.
  - destruct (world_succeeds_io w (template_path (self s)) "user_schedule.html"
                (UserScheduleData (spec_title_lines w nickname date) []
                                  (generate_time_of w date)) 1000 600 Hw)
      as (img & path & Hok).
    exists img, path. split; [apply Hok |].
    rewrite (user_schedule_formatted w [] nickname date [] s eq_refl).
    now apply try_log_render_returns.
  - destruct (world_succeeds_io w (template_path (self s)) "ranking.html"
                (RankingData (date_range_of start_date end_date) [])
                1200 800 Hw) as (img & path & Hok).
    exists img, path. split; [apply Hok |].
    rewrite (ranking_formatted w [] start_date end_date [] s eq_refl).
    now apply try_log_render_returns.
Qed.

Lemma empty_inputs_render_witness :
  world_succeeds Sample.good_world /\
  exists img path,
    generate_ranking_image Sample.good_world [] (mkdate 2024 1 1)
      (mkdate 2024 1 7) Sample.fresh
    = (mkstate (self Sample.fresh) (log Sample.fresh)
         (<[path := img]> (files Sample.fresh)), Ok path).
Proof.
  assert (Hw : world_succeeds Sample.good_world).
  { split; [| split; [| split]].
    - intros tp name data mw dh. exists Sample.png. reflexivity.
    - exists "/tmp/tmpk3v9.png". reflexivity.
    - reflexivity.
    - reflexivity. }
  split; [exact Hw |].
  destruct (proj2 (proj2 (empty_inputs_render Sample.good_world Sample.fresh
                            "alice" None (mkdate 2024 1 1) (mkdate 2024 1 7)
                            Hw)))
    as (img & path & _ & Hrun).
  exists img, path. exact Hrun.
Defined.

Lemma try_log_answer {A} what (body : M A) (s : state) :
  snd (try_log what body s) = snd (body s).
Proof. unfold try_log. now destruct (body s) as [s' [a | e]]. Qed.

Lemma run_self w (c : call) (s : state) : self (fst (run w c s)) = self s.
Proof.
  destruct c as [courses | courses nickname date | ranking_data sd ed]; simpl.
  - rewrite generate_schedule_image_steps.
    apply try_log_self, render_and_save_self.
  - rewrite generate_user_schedule_image_steps. apply try_log_self.
    unfold mbind, lift.
    destruct (make_title_lines w nickname date); [| reflexivity].
    destruct (format_courses courses); [| reflexivity].
    apply render_and_save_self.
  - rewrite generate_ranking_image_steps. apply try_log_self.
    unfold mbind, lift.
    destruct (format_ranking ranking_data); [| reflexivity].
    apply render_and_save_self.
Qed.

Lemma run_answer w (c : call) (s1 s2 : state) :
  self s1 = self s2 -> snd (run w c s1) = snd (run w c s2).
Proof.
  intros Hs.
  destruct c as [courses | courses nickname date | ranking_data sd ed]; simpl.
  - rewrite !generate_schedule_image_steps, !try_log_answer.
    now apply render_and_save_answer.
  - rewrite !generate_user_schedule_image_steps, !try_log_answer.
    unfold mbind, lift.
    destruct (make_title_lines w nickname date); [| reflexivity].
    destruct (format_courses courses); [| reflexivity].
    now apply render_and_save_answer.
  - rewrite !generate_ranking_image_steps, !try_log_answer.
    unfold mbind, lift.
    destruct (format_ranking ranking_data); [| reflexivity].
    now apply render_and_save_answer.
Qed.

(** C8. Each of the three operations leaves the generator as it found it,
    field by field (template environment, template path, font path), and
    what a call returns or raises is the same whether or not another call,
    of any of the three operations on any arguments and with any behaviour
    of the outside world, was made before it. *)
Theorem operations_are_stateless w1 w2 (c1 c2 : call) (s : state) :
  self (fst (run w1 c1 s)) = self s
  /\ env (self (fst (run w1 c1 s))) = env (self s)
  /\ template_path (self (fst (run w1 c1 s))) = template_path (self s)
  /\ font_path (self (fst (run w1 c1 s))) = font_path (self s)
  /\ snd (run w2 c2 (fst (run w1 c1 s))) = snd (run w2 c2 s).
Proof.
  pose proof (run_self w1 c1 s) as Hself.
  repeat split; try (now rewrite Hself).
  now apply run_answer.
Qed.

(** ** Further properties: what a call does to the log and to the files *)

Lemma run_steps w (c : call) (s : state) :
  run w c s
  = try_log (failure_text c)
      (r <~ lift (request_of w c) ;;
       render_and_save w (req_name r) (req_data r) (req_max_width r)
                       (req_device_height r)) s.
Proof.
  destruct c as [courses | courses nickname date | ranking_data sd ed]; simpl.
  - reflexivity.
  - rewrite generate_user_schedule_image_steps.
    unfold try_log, mbind, lift.
    destruct (make_title_lines w nickname date); [| reflexivity]. simpl.
    destruct (format_courses courses); reflexivity.
  - rewrite generate_ranking_image_steps.
    unfold try_log, mbind, lift.
    destruct (format_ranking ranking_data); reflexivity.
Qed.

Lemma render_and_save_log w name data mw dh (s : state) :
  log (fst (render_and_save w name data mw dh s)) = log s.
Proof.
  unfold render_and_save, save_png, mbind, get_self, lift, set_file, mret.
  simpl.
  destruct (template_to_pic w _ name data mw dh) as [img | e]; [| reflexivity].
  destruct (NamedTemporaryFile w ".png") as [path | e]; [| reflexivity].
  destruct (file_write w path img) as [u | e]; [| reflexivity].
  destruct (file_close w path) as [u' | e]; reflexivity.
Qed.

(** The last two steps, outcome by outcome *)
Lemma render_and_save_cases w name data mw dh (s : state) :
  (exists img path,
     io_succeeds w (template_path (self s)) name data mw dh img path /\
     render_and_save w name data mw dh s
     = (mkstate (self s) (log s) (<[path := img]> (files s)), Ok path))
  \/ (exists e,
        (template_to_pic w (template_path (self s)) name data mw dh = Raise e
         \/ exists img,
              template_to_pic w (template_path (self s)) name data mw dh
              = Ok img /\ NamedTemporaryFile w ".png" = Raise e) /\
        render_and_save w name data mw dh s = (s, Raise e))
  \/ (exists e img path content,
        template_to_pic w (template_path (self s)) name data mw dh = Ok img /\
        NamedTemporaryFile w ".png" = Ok path /\
        (file_write w path img = Raise e
         \/ file_write w path img = Ok tt /\ file_close w path = Raise e) /\
        render_and_save w name data mw dh s
        = (mkstate (self s) (log s) (<[path := content]> (files s)), Raise e)).
Proof.
  unfold render_and_save, save_png, mbind, get_self, lift, set_file, mret,
    io_succeeds.
  simpl.
  destruct (template_to_pic w _ name data mw dh) as [img | e] eqn:Hr.
  2: { right. left. exists e. split; [now left | reflexivity]. }
  destruct (NamedTemporaryFile w ".png") as [path | e] eqn:Hc.
  2: { right. left. exists e. split; [right; now exists img | reflexivity]. }
  destruct (file_write w path img) as [[] | e] eqn:Hw.
  2: { right. right. exists e, img, path, []. auto. }
  destruct (file_close w path) as [[] | e] eqn:Hcl.
  - left. exists img, path. rewrite insert_insert_eq. auto.
  - right. right. exists e, img, path, img. rewrite insert_insert_eq.
    repeat split; auto.
Qed.

(** X1. The group-schedule operation never looks into the course entries:
    for every list of entries, whatever they hold, a working renderer and
    temp-file mechanism make it return the path of a file that holds the
    rendering of the template "group_schedule.html" at width 1200 and device
    height 800, with the list it was given, unchanged, as [courses]. *)
Theorem group_schedule_any_courses w (courses : list (gmap string pyval))
    (s : state) :
  world_succeeds w ->
  exists img path,
    template_to_pic w (template_path (self s)) "group_schedule.html"
                    (GroupScheduleData courses) 1200 800 = Ok img /\
    NamedTemporaryFile w ".png" = Ok path /\
    generate_schedule_image w courses s
    = (mkstate (self s) (log s) (<[path := img]> (files s)), Ok path).
Proof.
  intros Hw.
  destruct (world_succeeds_io w (template_path (self s)) "group_schedule.html"
              (GroupScheduleData courses) 1200 800 Hw) as (img & path & Hok).
  exists img, path. split; [apply Hok |]. split; [apply Hok |].
  rewrite generate_schedule_image_steps.
  now apply try_log_render_returns.
Qed.

Lemma group_schedule_any_courses_witness :
  exists img path,
    generate_schedule_image Sample.good_world
      [Sample.anonymous; <["start_time" := PyStr "08:05"]> Sample.lecture]
      Sample.fresh
    = (mkstate (self Sample.fresh) (log Sample.fresh)
         (<[path := img]> (files Sample.fresh)), Ok path).
Proof.
  assert (Hw : world_succeeds Sample.good_world).
  { split; [| split; [| split]].
    - intros tp name data mw dh. exists Sample.png. reflexivity.
    - exists "/tmp/tmpk3v9.png". reflexivity.
    - reflexivity.
    - reflexivity. }
  destruct (group_schedule_any_courses Sample.good_world
              [Sample.anonymous; <["start_time" := PyStr "08:05"]> Sample.lecture]
              Sample.fresh Hw) as (img & path & _ & _ & Hrun).
  exists img, path. exact Hrun.
Defined.

(** X2. When any of the three operations returns a path, that path is the
    name of the temporary file just created, the file holds exactly the
    bytes the renderer returned for the call's template, data and size, every
    other file is as before, and nothing was logged. *)
Theorem returned_path_holds_the_image w (c : call) (s s' : state)
    (path : string) :
  run w c s = (s', Ok path) ->
  exists r img,
    request_of w c = Ok r /\
    template_to_pic w (template_path (self s)) (req_name r) (req_data r)
                    (req_max_width r) (req_device_height r) = Ok img /\
    NamedTemporaryFile w ".png" = Ok path /\
    files s' !! path = Some img /\
    (forall other, other <> path -> files s' !! other = files s !! other) /\
    log s' = log s /\
    self s' = self s.
Proof.
  rewrite run_steps. unfold try_log, mbind, lift.
  destruct (request_of w c) as [r | e]; [| discriminate].
  destruct (render_and_save_cases w (req_name r) (req_data r)
              (req_max_width r) (req_device_height r) s)
    as [(img & p & Hok & Hrun) | [(e & _ & Hrun) | (e & img & p & ct & _ & _ & _ & Hrun)]];
    rewrite Hrun; simpl; try discriminate.
  intros [= <- <-]. exists r, img. simpl.
  destruct Hok as (Hr & Hc & _ & _).
  repeat split; auto.
  - apply lookup_insert_eq.
  - intros other Hne. now apply lookup_insert_ne.
Qed.

Lemma returned_path_holds_the_image_witness :
  files (fst (run Sample.good_world
                (CallRanking [Sample.alice; Sample.bob] (mkdate 2024 1 1)
                             (mkdate 2024 1 7)) Sample.fresh))
    !! "/tmp/tmpk3v9.png"
  = Some Sample.png.
Proof.
  destruct (returned_path_holds_the_image Sample.good_world
              (CallRanking [Sample.alice; Sample.bob] (mkdate 2024 1 1)
                           (mkdate 2024 1 7))
              Sample.fresh
              (fst (run Sample.good_world
                      (CallRanking [Sample.alice; Sample.bob] (mkdate 2024 1 1)
                                   (mkdate 2024 1 7)) Sample.fresh))
              "/tmp/tmpk3v9.png")
    as (r & img & _ & Himg & _ & Hfile & _).
  - vm_compute. reflexivity.
  - rewrite Hfile. f_equal. vm_compute in Himg. now injection Himg as <-.
Defined.

Lemma run_log w (c : call) (s : state) :
  log (fst (run w c s)) = log s ++ log_lines c (snd (run w c s)).
Proof.
  rewrite run_steps. unfold try_log, mbind, lift.
  destruct (request_of w c) as [r | e]; [| reflexivity].
  pose proof (render_and_save_log w (req_name r) (req_data r)
                (req_max_width r) (req_device_height r) s) as Hl.
  destruct (render_and_save w (req_name r) (req_data r) (req_max_width r)
              (req_device_height r) s) as [s1 [p | e]]; simpl in *.
  - now rewrite app_nil_r.
  - now rewrite Hl.
Qed.

(** X3. A call that runs to its return leaves the log as it was. A call
    that ends in an exception e of class [Exception], the exceptions the
    except clause catches, whatever raised it (the preparation of the data,
    the renderer or the temporary file), keeps the earlier lines and adds
    exactly one: the operation's failure text, ": ", and the text of e. What
    is not an [Exception] is not caught by the clause and is no part of this
    statement. *)
Theorem log_grows_by_one_line_per_failure w (c : call) (s : state) :
  (forall path, snd (run w c s) = Ok path -> log (fst (run w c s)) = log s)
  /\ (forall e : exn, snd (run w c s) = Raise e ->
        log (fst (run w c s))
        = log s ++ [failure_text c +:+ ": " +:+ exn_str e]).
Proof.
  pose proof (run_log w c s) as Hlog.
  split.
  - intros path Hok. rewrite Hlog, Hok. simpl. now rewrite app_nil_r.
  - intros e He. now rewrite Hlog, He.
Qed.

Lemma log_grows_by_one_line_per_failure_witness :
  log (fst (run Sample.good_world
              (CallUserSchedule
                 [<["start_time" := PyStr "08:05"]> Sample.lecture]
                 "alice" None) Sample.fresh))
  = ["生成用户课程表图片失败: 'str' object has no attribute 'strftime'"].
Proof.
  apply (proj2 (log_grows_by_one_line_per_failure Sample.good_world
                  (CallUserSchedule
                     [<["start_time" := PyStr "08:05"]> Sample.lecture]
                     "alice" None) Sample.fresh)
           (AttributeError (PyStr "08:05") "strftime")).
  reflexivity.
Defined.

(** X4. The except clause does not remove the temporary file: when the
    image was rendered and the file created, and then the write or the close
    raises e, the call raises e and the file is still there under its name;
    every other file is as before. *)
Theorem temp_file_left_behind w (c : call) (s : state) (r : request)
    (img : bytes) (path : string) (e : exn) :
  request_of w c = Ok r ->
  template_to_pic w (template_path (self s)) (req_name r) (req_data r)
                  (req_max_width r) (req_device_height r) = Ok img ->
  NamedTemporaryFile w ".png" = Ok path ->
  (file_write w path img = Raise e
   \/ file_write w path img = Ok tt /\ file_close w path = Raise e) ->
  snd (run w c s) = Raise e /\
  is_Some (files (fst (run w c s)) !! path) /\
  (forall other, other <> path ->
     files (fst (run w c s)) !! other = files s !! other).
Proof.
  intros Hreq Hr Hc Hwc. rewrite run_steps. unfold try_log, mbind, lift.
  rewrite Hreq.
  destruct (render_and_save_cases w (req_name r) (req_data r)
              (req_max_width r) (req_device_height r) s)
    as [(img' & p & Hok & Hrun)
       | [(e' & Hearly & Hrun)
         | (e' & img' & p & ct & Hr' & Hc' & Hwc' & Hrun)]].
  - exfalso. destruct Hok as (Hr' & Hc' & Hw' & Hcl').
    rewrite Hr in Hr'. injection Hr' as <-.
    rewrite Hc in Hc'. injection Hc' as <-.
    destruct Hwc as [Hw | [_ Hcl]]; congruence.
  - exfalso. destruct Hearly as [Hr' | (img' & _ & Hc')]; congruence.
  - rewrite Hr in Hr'. injection Hr' as <-.
    rewrite Hc in Hc'. injection Hc' as <-.
    assert (e' = e) as ->.
    { destruct Hwc as [Hw | [Hw Hcl]], Hwc' as [Hw' | [Hw' Hcl']]; congruence. }
    rewrite Hrun. simpl. split; [reflexivity |]. split.
    + exists ct. apply lookup_insert_eq.
    + intros other Hne. now apply lookup_insert_ne.
Qed.

Lemma temp_file_left_behind_witness :
  snd (run Sample.full_disk_world (CallSchedule [Sample.lecture]) Sample.fresh)
  = Raise Sample.disk_full /\
  is_Some (files (fst (run Sample.full_disk_world
                         (CallSchedule [Sample.lecture]) Sample.fresh))
             !! "/tmp/tmpk3v9.png").
Proof.
  destruct (temp_file_left_behind Sample.full_disk_world
              (CallSchedule [Sample.lecture]) Sample.fresh
              (mkrequest "group_schedule.html"
                 (GroupScheduleData [Sample.lecture]) 1200 800)
              Sample.png "/tmp/tmpk3v9.png" Sample.disk_full)
    as (Hraise & Hfile & _).
  - reflexivity.
  - reflexivity.
  - reflexivity.
  - left. reflexivity.
  - split; [exact Hraise | exact Hfile].
Defined.

(** X5. When the failure comes before a temporary file exists (the template
    data cannot be prepared, the renderer raises, or the file cannot be
    created), the call changes nothing but the log: the files and the
    generator are as before, and the exception raised is that first one. *)
Theorem early_failure_touches_no_file w (c : call) (s : state) (e : exn) :
  (request_of w c = Raise e
   \/ exists r,
        request_of w c = Ok r /\
        (template_to_pic w (template_path (self s)) (req_name r) (req_data r)
                         (req_max_width r) (req_device_height r) = Raise e
         \/ exists img,
              template_to_pic w (template_path (self s)) (req_name r)
                (req_data r) (req_max_width r) (req_device_height r) = Ok img
              /\ NamedTemporaryFile w ".png" = Raise e)) ->
  run w c s
  = (mkstate (self s) (log s ++ [failure_text c +:+ ": " +:+ exn_str e])
             (files s),
     Raise e).
Proof.
  intros Hearly. rewrite run_steps.
  rewrite (try_log_raises (failure_text c) _ s s e); [reflexivity |].
  unfold mbind, lift.
  destruct Hearly as [-> | (r & -> & Hio)]; [reflexivity |].
  unfold render_and_save, save_png, mbind, get_self, lift. simpl.
  destruct Hio as [-> | (img & -> & ->)]; reflexivity.
Qed.

Lemma early_failure_touches_no_file_witness :
  run Sample.no_template_world (CallSchedule [Sample.lecture]) Sample.fresh
  = (mkstate (self Sample.fresh)
       ["生成群课程表图片失败: group_schedule.html"] (files Sample.fresh),
     Raise Sample.TemplateNotFound).
Proof.
  apply (early_failure_touches_no_file Sample.no_template_world
           (CallSchedule [Sample.lecture]) Sample.fresh
           Sample.TemplateNotFound).
  right. eexists. split; [reflexivity |]. left. reflexivity.
Defined.

(** ** Further properties: the entries of the personal schedule *)

Lemma py_strftime_datetime (v : pyval) (fmt : string) :
  is_datetime v = false -> py_strftime v fmt = Raise (AttributeError v "strftime").
Proof. now destruct v. Qed.

Lemma format_course_formattable (course : gmap string pyval) :
  formattable course = true <-> exists fc, format_course course = Ok fc.
Proof.
  unfold formattable, format_course.
  destruct (truthy (dict_get course "start_time")
            && truthy (dict_get course "end_time")); simpl.
  - destruct (dict_get course "start_time") as [| z | str | d | t]; simpl;
      try (split; [discriminate | intros [fc Hfc]; discriminate]).
    destruct (dict_get course "end_time") as [| z | str | d' | t]; simpl;
      try (split; [discriminate | intros [fc Hfc]; discriminate]).
    split; [now eexists | reflexivity].
  - split; [now eexists | reflexivity].
Qed.

(** X6. What the loop body of the personal schedule does with any values
    stored under [start_time] and [end_time]: if either is false as a
    condition ([None], 0, the empty string, a zero duration, or absent) the
    time string is "时间未知" and nothing is raised; if both are true and the
    start has no [strftime], an [AttributeError] about the start is raised;
    if the start is a timestamp and the end is true without [strftime], the
    [AttributeError] is about the end. An entry is formatted exactly when one
    of the two is false or both are timestamps. *)
Theorem time_fields_of_any_value (course : gmap string pyval) :
  (truthy (dict_get course "start_time") && truthy (dict_get course "end_time")
   = false ->
   exists fc, format_course course = Ok fc /\ time_str fc = "时间未知")
  /\ (truthy (dict_get course "start_time") = true ->
      truthy (dict_get course "end_time") = true ->
      is_datetime (dict_get course "start_time") = false ->
      format_course course
      = Raise (AttributeError (dict_get course "start_time") "strftime"))
  /\ (truthy (dict_get course "end_time") = true ->
      is_datetime (dict_get course "start_time") = true ->
      is_datetime (dict_get course "end_time") = false ->
      format_course course
      = Raise (AttributeError (dict_get course "end_time") "strftime"))
  /\ (formattable course = true <-> exists fc, format_course course = Ok fc).
Proof.
  split; [| split; [| split]].
  - intros Hfalse. unfold format_course. rewrite Hfalse. simpl. now eexists.
  - intros Hs He Hnd. unfold format_course. rewrite Hs, He. simpl.
    now rewrite (py_strftime_datetime _ _ Hnd).
  - intros He Hsd Hnd. unfold format_course.
    destruct (dict_get course "start_time") as [| z | str | d | t];
      try discriminate.
    simpl. rewrite He. simpl. now rewrite (py_strftime_datetime _ _ Hnd).
  - apply format_course_formattable.
Qed.

Lemma time_fields_of_any_value_witness :
  (exists fc,
     format_course (<["start_time" := PyInt 0]> Sample.lecture) = Ok fc /\
     time_str fc = "时间未知") /\
  format_course (<["start_time" := PyInt 805]> Sample.lecture)
  = Raise (AttributeError (PyInt 805) "strftime") /\
  format_course (<["end_time" := PyStr "09:45"]> Sample.lecture)
  = Raise (AttributeError (PyStr "09:45") "strftime").
Proof.
  split; [| split].
  - apply (proj1 (time_fields_of_any_value
                    (<["start_time" := PyInt 0]> Sample.lecture))).
    reflexivity.
  - exact (proj1 (proj2 (time_fields_of_any_value
                           (<["start_time" := PyInt 805]> Sample.lecture)))
             eq_refl eq_refl eq_refl).
  - exact (proj1 (proj2 (proj2 (time_fields_of_any_value
                           (<["end_time" := PyStr "09:45"]> Sample.lecture))))
             eq_refl eq_refl eq_refl).
Defined.

Lemma format_courses_concat (a b : list (gmap string pyval)) :
  format_courses (a ++ b)
  = (fa <- format_courses a ;;
     fb <- format_courses b ;;
     Ok (fa ++ fb)).
Proof.
  induction a as [| course a IH]; simpl.
  - now destruct (format_courses b).
  - destruct (format_course course) as [fc | e]; simpl; [| reflexivity].
    rewrite IH.
    destruct (format_courses a) as [fa | e]; simpl; [| reflexivity].
    now destruct (format_courses b).
Qed.

(** X7. Formatting a list of courses made of two parts is formatting the
    first part, then the second, and joining the results: the formatted
    courses of the first part do not depend on what follows them. An
    exception in the first part is the one raised, and the second part is
    then not looked at. *)
Theorem format_courses_app (a b : list (gmap string pyval)) :
  format_courses (a ++ b)
  = (fa <- format_courses a ;;
     fb <- format_courses b ;;
     Ok (fa ++ fb))
  /\ (forall fcs, format_courses (a ++ b) = Ok fcs ->
        format_courses a = Ok (take (length a) fcs) /\
        format_courses b = Ok (drop (length a) fcs))
  /\ (forall e, format_courses a = Raise e -> format_courses (a ++ b) = Raise e).
Proof.
  split; [apply format_courses_concat |]. split.
  - intros fcs. rewrite format_courses_concat.
    destruct (format_courses a) as [fa | e] eqn:Hfa; simpl; [| discriminate].
    destruct (format_courses b) as [fb | e] eqn:Hfb; simpl; [| discriminate].
    intros [= <-].
    assert (Hlen : length fa = length a).
    { apply format_courses_Forall2 in Hfa. symmetry.
      exact (Forall2_length _ _ _ Hfa). }
    rewrite <- Hlen. now rewrite take_app_length, drop_app_length.
  - intros e He. rewrite format_courses_concat. now rewrite He.
Qed.

Lemma format_courses_app_witness :
  format_courses [Sample.lecture]
  = Ok (take 1 [mkcourse "08:05 - 09:45"
                  [PyStr "Algebra"; PyNone; PyStr "未知教师"];
                mkcourse "时间未知"
                  [PyStr "Reading"; PyStr "未知地点"; PyStr "未知教师"]]).
Proof.
  apply (proj1 (proj2 (format_courses_app [Sample.lecture] [Sample.untimed]))
           _ eq_refl).
Defined.

Lemma format_courses_forallb (courses : list (gmap string pyval)) :
  forallb formattable courses = true <->
  exists fcs, format_courses courses = Ok fcs.
Proof.
  induction courses as [| course rest IH]; simpl.
  - split; [now eexists | reflexivity].
  - rewrite andb_true_iff, (format_course_formattable course), IH.
    split.
    + intros [[fc ->] [fcs ->]]. simpl. now eexists.
    + destruct (format_course course) as [fc | e]; simpl;
        [| intros [fcs Hf]; discriminate].
      destruct (format_courses rest) as [fcs | e]; simpl;
        [| intros [fcs Hf]; discriminate].
      intros _. split; now eexists.
Qed.

(** X8. The personal schedule is prepared exactly when every entry can be
    formatted; then there is one formatted course per entry. One entry with
    two true time values that are not both timestamps makes the whole list
    fail. *)
Theorem format_courses_succeeds_iff (courses : list (gmap string pyval)) :
  (forallb formattable courses = true <->
   exists fcs, format_courses courses = Ok fcs)
  /\ (forall fcs, format_courses courses = Ok fcs ->
        length fcs = length courses).
Proof.
  split; [apply format_courses_forallb |].
  intros fcs Hf. apply format_courses_Forall2 in Hf.
  symmetry. exact (Forall2_length _ _ _ Hf).
Qed.

Lemma format_courses_succeeds_iff_witness :
  exists fcs,
    format_courses [Sample.lecture; Sample.open_ended; Sample.untimed] = Ok fcs
    /\ length fcs = 3%nat.
Proof.
  destruct (proj1 (proj1 (format_courses_succeeds_iff
                            [Sample.lecture; Sample.open_ended; Sample.untimed]))
              eq_refl) as [fcs Hfcs].
  exists fcs. split; [exact Hfcs |].
  exact (proj2 (format_courses_succeeds_iff
                  [Sample.lecture; Sample.open_ended; Sample.untimed])
           fcs Hfcs).
Defined.

(** X9. In the personal-schedule operation the first entry that cannot be
    formatted decides the outcome: if the entries before it can be formatted
    and it raises e, the operation logs one line with the text of e and
    raises e, whatever follows in the list; the renderer is not consulted and
    no file is touched. *)
Theorem user_schedule_first_bad_entry w (good rest : list (gmap string pyval))
    (bad : gmap string pyval) nickname date (s : state) (e : exn) :
  forallb formattable good = true ->
  format_course bad = Raise e ->
  generate_user_schedule_image w (good ++ bad :: rest) nickname date s
  = (mkstate (self s)
       (log s ++ ["生成用户课程表图片失败: " +:+ exn_str e]) (files s),
     Raise e).
Proof.
  intros Hgood Hbad.
  destruct (proj1 (format_courses_forallb good) Hgood) as [fg Hfg].
  assert (Hall : format_courses (good ++ bad :: rest) = Raise e).
  { rewrite format_courses_concat, Hfg. simpl. now rewrite Hbad. }
  rewrite generate_user_schedule_image_steps.
  rewrite (try_log_raises "生成用户课程表图片失败" _ s s e); [reflexivity |].
  unfold mbind, lift. now rewrite make_title_lines_total, Hall.
Qed.

Lemma user_schedule_first_bad_entry_witness :
  generate_user_schedule_image Sample.good_world
    ([Sample.untimed] ++ (<["end_time" := PyStr "09:45"]> Sample.lecture)
       :: [Sample.lecture]) "alice" None Sample.fresh
  = (mkstate (self Sample.fresh)
       ["生成用户课程表图片失败: 'str' object has no attribute 'strftime'"]
       (files Sample.fresh),
     Raise (AttributeError (PyStr "09:45") "strftime")).
Proof.
  apply (user_schedule_first_bad_entry Sample.good_world [Sample.untimed]
           [Sample.lecture] (<["end_time" := PyStr "09:45"]> Sample.lecture)
           "alice" None Sample.fresh
           (AttributeError (PyStr "09:45") "strftime")); reflexivity.
Defined.

(** ** Further properties: the rows of the ranking *)

(** X10. The loop body of the ranking reads the keys in a fixed order and
    stops at the first that is missing: [total_duration], then
    [course_count], then [user_id], then [nickname]; the [KeyError] names
    that key. A [total_duration] that is not a [timedelta] raises an
    [AttributeError] before any other key is read. *)
Theorem ranking_keys_read_in_order (i : nat) (data : gmap string pyval) :
  (data !! "total_duration" = None ->
   format_rank i data = Raise (KeyError "total_duration"))
  /\ (forall v, data !! "total_duration" = Some v ->
        (forall t, v <> PyTimedelta t) ->
        format_rank i data = Raise (AttributeError v "total_seconds"))
  /\ (forall t, data !! "total_duration" = Some (PyTimedelta t) ->
        data !! "course_count" = None ->
        format_rank i data = Raise (KeyError "course_count"))
  /\ (forall t, data !! "total_duration" = Some (PyTimedelta t) ->
        is_Some (data !! "course_count") ->
        data !! "user_id" = None ->
        format_rank i data = Raise (KeyError "user_id"))
  /\ (forall t, data !! "total_duration" = Some (PyTimedelta t) ->
        is_Some (data !! "course_count") ->
        is_Some (data !! "user_id") ->
        data !! "nickname" = None ->
        format_rank i data = Raise (KeyError "nickname")).
Proof.
  unfold format_rank, dict_getitem.
  split; [| split; [| split; [| split]]].
  - now intros ->.
  - intros v -> Hv. simpl. destruct v as [| z | str | d | t]; try reflexivity.
    now destruct (Hv t).
  - now intros t -> ->.
  - now intros t -> [cc ->] ->.
  - now intros t -> [cc ->] [uid ->] ->.
Qed.

Lemma ranking_keys_read_in_order_witness :
  format_rank 0 (delete "total_duration" Sample.anonymous)
  = Raise (KeyError "total_duration") /\
  format_rank 0 (delete "user_id" Sample.anonymous)
  = Raise (KeyError "user_id").
Proof.
  split.
  - exact (proj1 (ranking_keys_read_in_order 0
                    (delete "total_duration" Sample.anonymous)) eq_refl).
  - exact (proj1 (proj2 (proj2 (proj2 (ranking_keys_read_in_order 0
                    (delete "user_id" Sample.anonymous)))))
             (timedelta_of_seconds 0) eq_refl (ex_intro _ (PyInt 0) eq_refl)
             eq_refl).
Defined.

Lemma format_rank_ok_complete (i : nat) (data : gmap string pyval) row :
  format_rank i data = Ok row -> complete_entry data.
Proof.
  unfold format_rank, dict_getitem, complete_entry.
  destruct (data !! "total_duration") as [td |]; [| discriminate]. simpl.
  destruct td as [| z | str | d | t]; try discriminate. simpl.
  destruct (data !! "course_count") as [cc |]; [| discriminate]. simpl.
  destruct (data !! "user_id") as [uid |]; [| discriminate]. simpl.
  destruct (data !! "nickname") as [nick |]; [| discriminate]. simpl.
  intros _. repeat split; now eexists.
Qed.

Lemma format_ranking_from_complete (k : nat) ranking_data rows :
  format_ranking_from k ranking_data = Ok rows ->
  Forall complete_entry ranking_data.
Proof.
  revert k rows. induction ranking_data as [| d rest IH]; intros k rows; simpl.
  - constructor.
  - destruct (format_rank k d) as [r | e] eqn:Hr; [| discriminate]. simpl.
    destruct (format_ranking_from (S k) rest) as [rs | e] eqn:Hrs;
      [| discriminate].
    intros _. constructor; [now apply (format_rank_ok_complete k d r) |].
    now apply (IH (S k) rs).
Qed.

(** X11. The rows of the ranking are built exactly when every entry has
    the four keys and a [timedelta] as its duration; then there are as many
    rows as entries. Any other entry in the list, wherever it stands, makes
    the preparation raise. *)
Theorem format_ranking_succeeds_iff (ranking_data : list (gmap string pyval)) :
  ((exists rows, format_ranking ranking_data = Ok rows) <->
   Forall complete_entry ranking_data)
  /\ (forall rows, format_ranking ranking_data = Ok rows ->
        length rows = length ranking_data).
Proof.
  split.
  - split.
    + intros [rows Hrows]. now apply (format_ranking_from_complete 0 _ rows).
    + apply format_ranking_from_total.
  - intros rows Hrows.
    now destruct (format_ranking_from_lookup 0 ranking_data rows Hrows).
Qed.

Lemma format_ranking_succeeds_iff_witness :
  Forall complete_entry [Sample.bob; Sample.alice].
Proof.
  apply (proj1 (proj1 (format_ranking_succeeds_iff [Sample.bob; Sample.alice]))).
  eexists. reflexivity.
Defined.

Lemma format_ranking_from_concat (k : nat) (a b : list (gmap string pyval)) :
  format_ranking_from k (a ++ b)
  = (ra <- format_ranking_from k a ;;
     rb <- format_ranking_from (k + length a) b ;;
     Ok (ra ++ rb)).
Proof.
  revert k. induction a as [| d a IH]; intros k; simpl.
  - rewrite Nat.add_0_r. now destruct (format_ranking_from k b).
  - destruct (format_rank k d) as [r | e]; simpl; [| reflexivity].
    rewrite IH.
    replace (S k + length a)%nat with (k + S (length a))%nat by lia.
    destruct (format_ranking_from (S k) a) as [ra | e]; simpl;
      [| reflexivity].
    now destruct (format_ranking_from (k + S (length a)) b).
Qed.

(** X12. The rows of a list made of two parts are the rows of the first
    part followed by the rows of the second, whose ranks go on where the
    first part stopped; so entries added at the end never change the rows
    before them, and an exception in the first part is the one raised. *)
Theorem format_ranking_app (a b : list (gmap string pyval)) :
  format_ranking (a ++ b)
  = (ra <- format_ranking a ;;
     rb <- format_ranking_from (length a) b ;;
     Ok (ra ++ rb))
  /\ (forall rows, format_ranking (a ++ b) = Ok rows ->
        format_ranking a = Ok (take (length a) rows) /\
        format_ranking_from (length a) b = Ok (drop (length a) rows))
  /\ (forall e, format_ranking a = Raise e -> format_ranking (a ++ b) = Raise e).
Proof.
  unfold format_ranking.
  split; [now rewrite format_ranking_from_concat |]. split.
  - intros rows. rewrite format_ranking_from_concat. simpl.
    destruct (format_ranking_from 0 a) as [ra | e] eqn:Hra; simpl;
      [| discriminate].
    destruct (format_ranking_from (length a) b) as [rb | e] eqn:Hrb; simpl;
      [| discriminate].
    intros [= <-].
    destruct (format_ranking_from_lookup 0 a ra Hra) as [Hlen _].
    rewrite <- Hlen. now rewrite take_app_length, drop_app_length.
  - intros e He. rewrite format_ranking_from_concat. now rewrite He.
Qed.

Lemma format_ranking_app_witness :
  format_ranking [Sample.bob]
  = Ok (take 1 [mkrank 0 "1" "first"
                  "https://q1.qlogo.cn/g?b=qq&nk=234567&s=100"
                  (PyStr "bob") "2h 0m" "4 节";
                mkrank 1 "2" "second"
                  "https://q1.qlogo.cn/g?b=qq&nk=123456&s=100"
                  (PyStr "alice") "1h 1m" "2 节"]).
Proof.
  apply (proj1 (proj2 (format_ranking_app [Sample.bob] [Sample.alice]))
           _ eq_refl).
Defined.

(** X13. In the ranking operation the first entry that cannot be formatted
    decides the outcome: if the entries before it are complete and it raises
    e at its position, the operation logs one line with the text of e and
    raises e, whatever follows in the list; the renderer is not consulted and
    no file is touched. *)
Theorem ranking_first_bad_entry w (good rest : list (gmap string pyval))
    (bad : gmap string pyval) start_date end_date (s : state) (e : exn) :
  Forall complete_entry good ->
  format_rank (length good) bad = Raise e ->
  generate_ranking_image w (good ++ bad :: rest) start_date end_date s
  = (mkstate (self s) (log s ++ ["生成排行榜图片失败: " +:+ exn_str e])
             (files s),
     Raise e).
Proof.
  intros Hgood Hbad.
  destruct (format_ranking_from_total 0 good Hgood) as [rg Hrg].
  assert (Hall : format_ranking (good ++ bad :: rest) = Raise e).
  { unfold format_ranking. rewrite format_ranking_from_concat, Hrg.
    simpl. now rewrite Hbad. }
  rewrite generate_ranking_image_steps.
  rewrite (try_log_raises "生成排行榜图片失败" _ s s e); [reflexivity |].
  unfold mbind, lift. now rewrite Hall.
Qed.

Lemma ranking_first_bad_entry_witness :
  generate_ranking_image Sample.good_world
    ([Sample.alice; Sample.bob] ++ Sample.anonymous
       :: [delete "user_id" Sample.carol])
    (mkdate 2024 1 1) (mkdate 2024 1 7) Sample.fresh
  = (mkstate (self Sample.fresh) ["生成排行榜图片失败: 'nickname'"]
             (files Sample.fresh),
     Raise (KeyError "nickname")).
Proof.
  apply (ranking_first_bad_entry Sample.good_world [Sample.alice; Sample.bob]
           [delete "user_id" Sample.carol] Sample.anonymous
           (mkdate 2024 1 1) (mkdate 2024 1 7) Sample.fresh
           (KeyError "nickname")).
  - repeat constructor; eexists; reflexivity.
  - reflexivity.
Defined.

(** ** Further properties: the texts of a row *)

Lemma str_of_Z_parses (z : Z) :
  NilZero.int_of_string (str_of_Z z) = Some (Z.to_int z).
Proof.
  unfold str_of_Z. apply NilZero.isi.
  - destruct z as [| p | p]; simpl; try discriminate.
    intros [= Hp]. now apply (DecimalPos.Unsigned.to_uint_nonnil p).
  - destruct z as [| p | p]; simpl; try discriminate.
    intros [= Hp]. now apply (DecimalPos.Unsigned.to_uint_nonnil p).
Qed.

Lemma str_of_Z_inj (z1 z2 : Z) : str_of_Z z1 = str_of_Z z2 -> z1 = z2.
Proof.
  intros Heq. apply DecimalZ.to_int_inj.
  pose proof (str_of_Z_parses z1) as H1.
  rewrite Heq, str_of_Z_parses in H1. now injection H1.
Qed.

Lemma append_length (s1 s2 : string) :
  String.length (s1 +:+ s2) = (String.length s1 + String.length s2)%nat.
Proof.
  induction s1 as [| c s1 IH]; [reflexivity |].
  change (S (String.length (s1 +:+ s2))
          = S (String.length s1 + String.length s2)).
  now rewrite IH.
Qed.

Lemma append_cancel_r (s1 s2 t : string) : s1 +:+ t = s2 +:+ t -> s1 = s2.
Proof.
  revert s2. induction s1 as [| c s1 IH]; intros [| c' s2] Heq.
  - reflexivity.
  - exfalso. apply (f_equal String.length) in Heq.
    change (String.length t = S (String.length (s2 +:+ t))) in Heq.
    rewrite append_length in Heq. lia.
  - exfalso. apply (f_equal String.length) in Heq.
    change (S (String.length (s1 +:+ t)) = String.length t) in Heq.
    rewrite append_length in Heq. lia.
  - change (String c (s1 +:+ t) = String c' (s2 +:+ t)) in Heq.
    injection Heq as -> Htl. f_equal. now apply IH.
Qed.

Lemma append_cancel_l (s t1 t2 : string) : s +:+ t1 = s +:+ t2 -> t1 = t2.
Proof.
  induction s as [| c s IH]; [easy |].
  change (String c (s +:+ t1) = String c (s +:+ t2) -> t1 = t2).
  intros [= Heq]. now apply IH.
Qed.

Lemma format_ranking_row_source ranking_data rows (i : nat) row :
  format_ranking ranking_data = Ok rows ->
  rows !! i = Some row ->
  exists data, ranking_data !! i = Some data /\ format_rank i data = Ok row.
Proof.
  intros Hrows Hrow.
  destruct (format_ranking_from_lookup 0 ranking_data rows Hrows)
    as [Hlen Hlook].
  assert (Hlt : (i < length ranking_data)%nat).
  { rewrite <- Hlen. now apply (lookup_lt_Some rows i row). }
  destruct (lookup_lt_is_Some_2 ranking_data i Hlt) as [data Hdata].
  destruct (Hlook i data Hdata) as (row' & Hrow' & Hfmt).
  simpl in Hfmt. exists data. split; [exact Hdata |]. congruence.
Qed.

(** X14. No two rows of a ranking carry the same rank: the rank text of a
    row is the decimal of its position plus one, it parses back to that
    number, and rows at different positions have different rank texts, also
    when their durations or counts are equal. *)
Theorem ranks_are_distinct (ranking_data : list (gmap string pyval))
    (rows : list formatted_rank) :
  format_ranking ranking_data = Ok rows ->
  (forall (i j : nat) r1 r2,
     rows !! i = Some r1 -> rows !! j = Some r2 ->
     rank r1 = rank r2 -> i = j)
  /\ (forall (i : nat) r,
        rows !! i = Some r ->
        NilZero.int_of_string (rank r) = Some (Z.to_int (Z.of_nat i + 1)) /\
        row_index r = Z.of_nat i)
  /\ NoDup (rank <$> rows).
Proof.
  intros Hrows.
  assert (Hrank : forall (i : nat) r, rows !! i = Some r ->
                    rank r = str_of_Z (Z.of_nat i + 1) /\
                    row_index r = Z.of_nat i).
  { intros i r Hr.
    destruct (format_ranking_row_source _ _ _ _ Hrows Hr) as (d & _ & Hfmt).
    destruct (format_rank_row i d r Hfmt) as (Hidx & Hrk & _). now split. }
  assert (Hinj : forall (i j : nat) r1 r2,
                   rows !! i = Some r1 -> rows !! j = Some r2 ->
                   rank r1 = rank r2 -> i = j).
  { intros i j r1 r2 H1 H2 Heq.
    rewrite (proj1 (Hrank i r1 H1)), (proj1 (Hrank j r2 H2)) in Heq.
    apply str_of_Z_inj in Heq. lia. }
  split; [exact Hinj |]. split.
  - intros i r Hr. destruct (Hrank i r Hr) as [Hrk Hidx].
    split; [| exact Hidx]. rewrite Hrk. apply str_of_Z_parses.
  - apply NoDup_alt. intros i j x Hi Hj.
    rewrite list_lookup_fmap in Hi, Hj.
    destruct (rows !! i) as [r1 |] eqn:H1; [| discriminate].
    destruct (rows !! j) as [r2 |] eqn:H2; [| discriminate].
    simpl in Hi, Hj. apply (Hinj i j r1 r2 H1 H2). congruence.
Qed.

Lemma ranks_are_distinct_witness :
  exists rows,
    format_ranking [Sample.alice; Sample.alice; Sample.alice] = Ok rows /\
    NoDup (rank <$> rows).
Proof.
  eexists. split; [reflexivity |].
  apply (proj2 (proj2 (ranks_are_distinct
                         [Sample.alice; Sample.alice; Sample.alice] _ eq_refl))).
Defined.

(** X15. The duration text never rounds up and never shows 60 minutes or
    more: for a duration of S seconds, a whole number below 2^53 in size (as
    every [timedelta] without microseconds is), it is the decimal of H,
    "h ", the decimal of M, "m", with 0 <= M < 60 and
    H*3600 + M*60 <= S < H*3600 + M*60 + 60. Days are not shown apart: they
    count as 24 hours each, so H is not bounded by 24; H is negative exactly
    when the duration is. *)
Theorem duration_never_rounds_up (t : timedelta) :
  microseconds t = 0 ->
  - 2 ^ 53 < days t * 86400 + seconds t < 2 ^ 53 ->
  exists H M : Z,
    format_duration (total_seconds t)
    = str_of_Z H +:+ "h " +:+ str_of_Z M +:+ "m" /\
    0 <= M < 60 /\
    H * 3600 + M * 60 <= days t * 86400 + seconds t
                       < H * 3600 + M * 60 + 60 /\
    (H < 0 <-> days t * 86400 + seconds t < 0).
Proof.
  intros Hu Hexact. rewrite (format_duration_whole t) by (rewrite Hu; lia).
  unfold spec_duration, whole_seconds. clear Hexact.
  set (S := days t * 86400 + seconds t).
  exists (S / 3600), ((S mod 3600) / 60). split; [reflexivity |].
  pose proof (Z.mod_pos_bound S 3600 ltac:(lia)) as Hmod.
  pose proof (Z.div_mod S 3600 ltac:(lia)) as Hdm.
  pose proof (Z.div_mod (S mod 3600) 60 ltac:(lia)) as Hdm'.
  pose proof (Z.mod_pos_bound (S mod 3600) 60 ltac:(lia)) as Hmod'.
  assert (HM : 0 <= (S mod 3600) / 60 < 60).
  { split; [apply Z.div_pos; lia | apply Z.div_lt_upper_bound; lia]. }
  split; [exact HM |]. split; [lia |].
  split; intros Hneg.
  - lia.
  - assert (S / 3600 < 0 \/ 0 <= S / 3600) as [Hlt | Hge] by lia;
      [exact Hlt | lia].
Qed.

Lemma duration_never_rounds_up_witness :
  exists H M : Z,
    format_duration (total_seconds (mktimedelta 2 3599 0))
    = str_of_Z H +:+ "h " +:+ str_of_Z M +:+ "m" /\
    0 <= M < 60 /\
    H * 3600 + M * 60 <= 2 * 86400 + 3599 < H * 3600 + M * 60 + 60.
Proof.
  destruct (duration_never_rounds_up (mktimedelta 2 3599 0))
    as (H & M & Htext & HM & Hbounds & _).
  - reflexivity.
  - simpl. lia.
  - exists H, M. repeat split; try apply HM; try apply Hbounds. exact Htext.
Defined.

Example duration_of_two_days :
  format_duration (total_seconds (mktimedelta 2 3599 0)) = "48h 59m".
Proof. reflexivity. Qed.

(** X16. The avatar URL tells the users apart: two integer user ids give
    the same URL only when they are the same number, and so do the rows of
    two entries. *)
Theorem avatar_url_tells_users_apart (u1 u2 : Z) :
  (make_avatar_url (PyInt u1) = make_avatar_url (PyInt u2) -> u1 = u2)
  /\ (forall (i j : nat) d1 d2 r1 r2,
        d1 !! "user_id" = Some (PyInt u1) ->
        d2 !! "user_id" = Some (PyInt u2) ->
        format_rank i d1 = Ok r1 ->
        format_rank j d2 = Ok r2 ->
        avatar_url r1 = avatar_url r2 -> u1 = u2).
Proof.
  assert (Hinj : make_avatar_url (PyInt u1) = make_avatar_url (PyInt u2) ->
                 u1 = u2).
  { unfold make_avatar_url. simpl py_str. intros Heq.
    apply append_cancel_l, append_cancel_r in Heq. now apply str_of_Z_inj. }
  split; [exact Hinj |].
  intros i j d1 d2 r1 r2 Hu1 Hu2 Hr1 Hr2 Hurl. apply Hinj.
  destruct (format_rank_ok_complete i d1 r1 Hr1)
    as ([t1 Ht1] & [c1 Hc1] & _ & [n1 Hn1]).
  destruct (format_rank_ok_complete j d2 r2 Hr2)
    as ([t2 Ht2] & [c2 Hc2] & _ & [n2 Hn2]).
  rewrite (format_rank_complete i d1 t1 c1 (PyInt u1) n1) in Hr1 by assumption.
  rewrite (format_rank_complete j d2 t2 c2 (PyInt u2) n2) in Hr2 by assumption.
  injection Hr1 as <-. injection Hr2 as <-. exact Hurl.
Qed.

Lemma avatar_url_tells_users_apart_witness :
  make_avatar_url (PyInt 123456) = make_avatar_url (PyInt 123456) /\
  123456 = 123456.
Proof.
  split; [reflexivity |].
  apply (proj1 (avatar_url_tells_users_apart 123456 123456)). reflexivity.
Defined.

(** X17. Of the four fields of a ranking entry only [total_duration] is
    used through a method; the other three are accepted whatever they hold
    and are written as an f-string writes them, or passed on: the count text
    is the stored value followed by " 节", the URL carries the stored user
    id, and the nickname is handed to the template as it is. A stored [None]
    is therefore not an error: it gives "None 节" and "...nk=None&s=100". *)
Theorem ranking_fields_are_not_checked (i : nat) (data : gmap string pyval)
    (t : timedelta) (cc uid nick : pyval) :
  data !! "total_duration" = Some (PyTimedelta t) ->
  data !! "course_count" = Some cc ->
  data !! "user_id" = Some uid ->
  data !! "nickname" = Some nick ->
  exists row,
    format_rank i data = Ok row /\
    count_str row = py_str cc +:+ " 节" /\
    avatar_url row = "https://q1.qlogo.cn/g?b=qq&nk=" +:+ py_str uid +:+ "&s=100" /\
    nickname row = nick /\
    (forall n : Z, cc = PyInt n -> count_str row = str_of_Z n +:+ " 节") /\
    (cc = PyNone -> count_str row = "None 节") /\
    (uid = PyNone -> avatar_url row = "https://q1.qlogo.cn/g?b=qq&nk=None&s=100").
Proof.
  intros Ht Hc Hu Hn.
  rewrite (format_rank_complete i data t cc uid nick) by assumption.
  eexists. split; [reflexivity |]. simpl.
  repeat split; try reflexivity.
  - now intros n ->.
  - now intros ->.
  - now intros ->.
Qed.

Lemma ranking_fields_are_not_checked_witness :
  exists row,
    format_rank 0 (<["course_count" := PyNone]> Sample.alice) = Ok row /\
    count_str row = "None 节" /\
    nickname row = PyStr "alice".
Proof.
  destruct (ranking_fields_are_not_checked 0
              (<["course_count" := PyNone]> Sample.alice)
              (timedelta_of_seconds 3661) PyNone (PyInt 123456) (PyStr "alice"))
    as (row & Hrow & _ & _ & Hnick & _ & Hnone & _).
  - reflexivity.
  - reflexivity.
  - reflexivity.
  - reflexivity.
  - exists row. split; [exact Hrow |].
    split; [exact (Hnone eq_refl) | exact Hnick].
Defined.

(** ** Further properties: calls in sequence *)

Lemma run_all_cons w (c : call) rest (s : state) :
  run_all ((w, c) :: rest) s
  = (fst (run_all rest (fst (run w c s))),
     snd (run w c s) :: snd (run_all rest (fst (run w c s)))).
Proof.
  simpl. destruct (run w c s) as [s1 r]. simpl.
  now destruct (run_all rest s1) as [s2 rs].
Qed.

(** X18. However many calls are made one after the other, each running to
    its return or to its [Exception], on whatever arguments and whatever the
    clock, the renderer and the temp-file mechanism answer to each, the
    generator is left as it was, field by field, and each call returns or
    raises exactly what it would have returned or raised had it been the
    first. *)
Theorem calls_in_sequence (calls : list (world * call)) (s : state) :
  self (fst (run_all calls s)) = self s
  /\ env (self (fst (run_all calls s))) = env (self s)
  /\ template_path (self (fst (run_all calls s))) = template_path (self s)
  /\ font_path (self (fst (run_all calls s))) = font_path (self s)
  /\ length (snd (run_all calls s)) = length calls
  /\ snd (run_all calls s) = (fun wc => snd (run (fst wc) (snd wc) s)) <$> calls.
Proof.
  assert (Hmain : forall s,
             self (fst (run_all calls s)) = self s /\
             snd (run_all calls s)
             = (fun wc => snd (run (fst wc) (snd wc) s)) <$> calls).
  { clear s. induction calls as [| [w c] rest IH]; intros s.
    - now simpl.
    - rewrite run_all_cons. simpl fst. simpl snd.
      destruct (IH (fst (run w c s))) as (Hself & Hans).
      pose proof (run_self w c s) as Hs1.
      split; [now rewrite Hself |].
      rewrite Hans. simpl. f_equal.
      apply list_fmap_ext. intros k [w' c'] _. simpl.
      now apply run_answer. }
  destruct (Hmain s) as [Hself Hans].
  repeat split; try (now rewrite Hself); try exact Hans.
  rewrite Hans. apply length_fmap.
Qed.

(** ** Further properties: where the package looks for its files *)

Lemma parent_joinpath (p : Path) (name : string) : parent (joinpath p name) = p.
Proof.
  unfold parent, joinpath. simpl. rewrite removelast_last. now destruct p.
Qed.

(** X19. Wherever the package is installed, the templates directory, the
    fontconfig file and the default font are found from the package
    directory alone: templates is its subdirectory "templates", and
    "fonts.conf" and the default font "MapleMono-NF-CN-Medium.ttf" lie side
    by side in its subdirectory "resources". *)
Theorem package_paths (pkg : Path) :
  templates_dir (generator_file pkg) = joinpath pkg "templates"
  /\ fontconfig_path (generator_file pkg)
     = joinpath (joinpath pkg "resources") "fonts.conf"
  /\ default_font_path (config_file pkg)
     = joinpath (joinpath pkg "resources") "MapleMono-NF-CN-Medium.ttf"
  /\ parent (fontconfig_path (generator_file pkg))
     = parent (default_font_path (config_file pkg))
  /\ parent (parent (default_font_path (config_file pkg)))
     = parent (templates_dir (generator_file pkg)).
Proof.
  unfold templates_dir, fontconfig_path, default_font_path, generator_file,
    config_file.
  now rewrite !parent_joinpath.
Qed.
